(** * semgrep-extractor: the pattern-to-rule pipeline of [extractor.py]

    A shallow embedding of [extractor.py].  Python values are a tagged
    union, Python exceptions are an explicit [Raise] outcome, dictionaries
    are association lists in insertion order, sets of strings are [gset]s,
    and the effects of the program (the console, the operator's input, the
    remote service, the file system) are threaded through a [World]. *)

From Stdlib Require Import String Ascii List ZArith PrimFloat OrdersEx.
From Stdlib Require Import DecimalString.
From stdpp Require Import gmap strings list sorting.

Open Scope string_scope.

(** ** Python values *)

(** The values the program handles: what [response.json()] can produce
    (null, booleans, integers, floats, strings, lists, objects).  A string
    is its UTF-8 byte sequence.  A dictionary is the list of its items in
    insertion order; the first binding of a key is the one that counts. *)
#[warnings="-register-all"]
Inductive pyval : Type :=
| PNone
| PBool (b : bool)
| PInt (z : Z)
| PFloat (f : float)
| PStr (s : string)
| PList (l : list pyval)
| PDict (d : list (string * pyval)).

(** The exceptions the program can meet.  [ExceptionMsg] is a plain
    [Exception(msg)]; all of them derive from Python's [Exception]. *)
Inductive exn : Type :=
| AttributeError (receiver : pyval) (attr : string)
| TypeError (culprit : pyval)
| KeyError (key : pyval)
| IndexError
| ValueError (msg : string)
| EOFError
| OSError (path : string)
| RequestException (msg : string)
| ExceptionMsg (msg : string).

Inductive result (A : Type) : Type :=
| Ok (a : A)
| Raise (e : exn).
Arguments Ok {A} a.
Arguments Raise {A} e.

#[global] Instance result_ret : MRet result := fun A a => Ok a.
#[global] Instance result_bind : MBind result := fun A B f m =>
  match m with
  | Ok a => f a
  | Raise e => Raise e
  end.

(** [bool(v)]: the truth value Python gives a value in [if v]. *)
Definition truthy (v : pyval) : bool :=
  match v with
  | PNone => false
  | PBool b => b
  | PInt z => negb (z =? 0)%Z
  | PFloat f => negb (PrimFloat.eqb f 0%float)
  | PStr s => negb (String.eqb s "")
  | PList l => match l with [] => false | _ :: _ => true end
  | PDict d => match d with [] => false | _ :: _ => true end
  end.

(** Lookup in a dictionary's item list. *)
Fixpoint dict_lookup (k : string) (d : list (string * pyval)) : option pyval :=
  match d with
  | [] => None
  | (k', v) :: d' => if String.eqb k k' then Some v else dict_lookup k d'
  end.

(** [d[k] = v] on a dictionary: replace in place, or append a new item. *)
Fixpoint dict_set (k : string) (v : pyval) (d : list (string * pyval))
  : list (string * pyval) :=
  match d with
  | [] => [(k, v)]
  | (k', v') :: d' =>
      if String.eqb k k' then (k, v) :: d' else (k', v') :: dict_set k v d'
  end.

(** The keys of a dictionary in insertion order, each once. *)
Fixpoint dict_keys (d : list (string * pyval)) : list string :=
  match d with
  | [] => []
  | (k, _) :: d' => k :: filter (fun k' => negb (String.eqb k' k)) (dict_keys d')
  end.

(** [v.get(k, default)]: only a dictionary has the method. *)
Definition py_get (v : pyval) (k : string) (default : pyval) : result pyval :=
  match v with
  | PDict d => Ok (match dict_lookup k d with Some x => x | None => default end)
  | _ => Raise (AttributeError v "get")
  end.

(** [v[k]] for a string key [k]. *)
Definition py_getitem (v : pyval) (k : string) : result pyval :=
  match v with
  | PDict d =>
      match dict_lookup k d with
      | Some x => Ok x
      | None => Raise (KeyError (PStr k))
      end
  | _ => Raise (TypeError v)
  end.

(** ** Strings *)

(** A byte that continues a UTF-8 code point ([10xxxxxx]). *)
Definition utf8_continuation (c : ascii) : bool :=
  match c with
  | Ascii _ _ _ _ _ _ b6 b7 => b7 && negb b6
  end.

(** The characters of a string, one string per code point: what iterating
    over a Python [str] yields. *)
Fixpoint str_chars (s : string) : list string :=
  match s with
  | "" => []
  | String c s' =>
      match str_chars s' with
      | [] => [String c ""]
      | p :: ps =>
          match s' with
          | String c' _ =>
              if utf8_continuation c' then String c p :: ps
              else String c "" :: p :: ps
          | "" => String c "" :: p :: ps
          end
      end
  end.

(** [for x in v]: the items a value yields when iterated. *)
Definition py_iter (v : pyval) : result (list pyval) :=
  match v with
  | PList l => Ok l
  | PStr s => Ok (map PStr (str_chars s))
  | PDict d => Ok (map PStr (dict_keys d))
  | _ => Raise (TypeError v)
  end.

(** [needle in s] on strings: [needle] occurs in [s] as a substring. *)
Fixpoint str_contains (needle s : string) : bool :=
  String.prefix needle s ||
  match s with
  | "" => false
  | String _ s' => str_contains needle s'
  end.

(** [needle in v] for a string [needle]: substring of a string, element of
    a list, key of a dictionary; other values are not containers. *)
Definition py_in (needle : string) (v : pyval) : result bool :=
  match v with
  | PStr s => Ok (str_contains needle s)
  | PList l =>
      Ok (existsb (fun x => match x with
                            | PStr s => String.eqb s needle
                            | _ => false
                            end) l)
  | PDict d => Ok (match dict_lookup needle d with Some _ => true | None => false end)
  | _ => Raise (TypeError v)
  end.

(** [s.split(c)] for a one-character separator [c]: never empty; [""]
    splits into [[""]]. *)
Fixpoint str_split (c : ascii) (s : string) : list string :=
  match s with
  | "" => [""]
  | String a s' =>
      if Ascii.eqb a c then "" :: str_split c s'
      else match str_split c s' with
           | [] => [String a ""]
           | p :: ps => String a p :: ps
           end
  end.

(** [sep.join(parts)]. *)
Fixpoint str_join (sep : string) (parts : list string) : string :=
  match parts with
  | [] => ""
  | [p] => p
  | p :: ps => p ++ sep ++ str_join sep ps
  end.

(** [v == s] for a string [s]: only the same string is equal to it. *)
Definition py_eq_str (v : pyval) (s : string) : bool :=
  match v with
  | PStr s' => String.eqb s' s
  | _ => false
  end.

(** [mapM] over a list, left to right, stopping at the first exception. *)
Fixpoint result_map {A B : Type} (f : A -> result B) (l : list A)
  : result (list B) :=
  match l with
  | [] => Ok []
  | x :: l' =>
      y ← f x;
      ys ← result_map f l';
      Ok (y :: ys)
  end.

(** [sorted(l)] on strings: ascending by code point, which on UTF-8 is the
    byte order of [String.leb]. *)
Definition str_le (s1 s2 : string) : Prop := String.leb s1 s2 = true.

#[global] Instance str_le_dec (s1 s2 : string) : Decision (str_le s1 s2).
Proof. unfold str_le. apply _. Defined.

Definition sorted (l : list string) : list string := merge_sort str_le l.

(** ** The world the program runs in *)

(** The remote service answers a request (its URL) knowing the requests made
    before it; [requests] logs the URLs requested so far.  [stdin] holds the
    lines the operator will type, [stdout] what was printed (prompts
    included), [stderr] the exceptions whose traceback was printed.
    [writable] tells which paths can be opened for writing and [files] holds
    what was written. *)
Record World : Type := {
  service : list string -> string -> result pyval;
  requests : list string;
  stdin : list string;
  stdout : list string;
  stderr : list exn;
  writable : string -> bool;
  files : list (string * string)
}.

Definition with_request (url : string) (w : World) : World :=
  {| service := service w; requests := requests w ++ [url];
     stdin := stdin w; stdout := stdout w; stderr := stderr w;
     writable := writable w; files := files w |}.

Definition with_stdin (lines : list string) (w : World) : World :=
  {| service := service w; requests := requests w;
     stdin := lines; stdout := stdout w; stderr := stderr w;
     writable := writable w; files := files w |}.

Definition with_stdout (lines : list string) (w : World) : World :=
  {| service := service w; requests := requests w;
     stdin := stdin w; stdout := lines; stderr := stderr w;
     writable := writable w; files := files w |}.

Definition with_traceback (e : exn) (w : World) : World :=
  {| service := service w; requests := requests w;
     stdin := stdin w; stdout := stdout w; stderr := stderr w ++ [e];
     writable := writable w; files := files w |}.

Definition with_file (path content : string) (w : World) : World :=
  {| service := service w; requests := requests w;
     stdin := stdin w; stdout := stdout w; stderr := stderr w;
     writable := writable w; files := (path, content) :: files w |}.

(** A computation of the program: from a world to [None] when it is still
    running after the steps it was allowed, or to its result (a value or an
    exception) and the world it leaves. *)
Definition IO (A : Type) : Type := World -> option (result A * World).

#[global] Instance io_ret : MRet IO := fun A a w => Some (Ok a, w).
#[global] Instance io_bind : MBind IO := fun A B f m w =>
  match m w with
  | Some (Ok a, w') => f a w'
  | Some (Raise e, w') => Some (Raise e, w')
  | None => None
  end.

(** A pure step, which can raise. *)
Definition lift {A : Type} (r : result A) : IO A := fun w => Some (r, w).

(** [raise e] *)
Definition io_raise {A : Type} (e : exn) : IO A := lift (Raise e).

(** [print(line)] *)
Definition print (line : string) : IO unit :=
  fun w => Some (Ok tt, with_stdout (stdout w ++ [line]) w).

(** [input(prompt)]: the prompt is written, then a line is read; at the end
    of the input [EOFError] is raised. *)
Definition input (prompt : string) : IO string :=
  fun w =>
    let w := with_stdout (stdout w ++ [prompt]) w in
    match stdin w with
    | [] => Some (Raise EOFError, w)
    | line :: rest => Some (Ok line, with_stdin rest w)
    end.

(** The number of lines the operator has yet to type. *)
Definition pending_lines : IO nat :=
  fun w => Some (Ok (length (stdin w)), w).

(** [requests.get(url, headers=get_codacy_headers())], [raise_for_status()]
    and [.json()]: the parsed body, or the exception of the failed request. *)
Definition http_get_json (url : string) : IO pyval :=
  fun w => Some (service w (requests w) url, with_request url w).

(** [with open(path, "w") as f: f.write(content)] *)
Definition write_file (path content : string) : IO unit :=
  fun w =>
    if writable w path then Some (Ok tt, with_file path content w)
    else Some (Raise (OSError path), w).

(** Line feed and carriage return. *)
Definition LF : string := String (ascii_of_nat 10) "".
Definition CR : string := String (ascii_of_nat 13) "".

(** [len(v)] *)
Definition py_len (v : pyval) : result Z :=
  match v with
  | PList l => Ok (Z.of_nat (length l))
  | PDict d => Ok (Z.of_nat (length (dict_keys d)))
  | PStr s => Ok (Z.of_nat (length (str_chars s)))
  | _ => Raise (TypeError v)
  end.

(** [v[i]] for an integer [i] that is not negative. *)
Definition py_index (v : pyval) (i : nat) : result pyval :=
  match v with
  | PList l =>
      match nth_error l i with
      | Some x => Ok x
      | None => Raise IndexError
      end
  | PStr s =>
      match nth_error (str_chars s) i with
      | Some c => Ok (PStr c)
      | None => Raise IndexError
      end
  | PDict _ => Raise (KeyError (PInt (Z.of_nat i)))
  | _ => Raise (TypeError v)
  end.

(** [for x in xs: body(x)] *)
Fixpoint io_for {A : Type} (xs : list A) (body : A -> IO unit) : IO unit :=
  match xs with
  | [] => mret tt
  | x :: xs' => body x ;; io_for xs' body
  end.

(** [enumerate(xs, 1)] *)
Definition enumerate1 {A : Type} (xs : list A) : list (Z * A) :=
  zip (Z.of_nat <$> seq 1 (length xs)) xs.

(** ** The interpreter's built-ins

    The string methods, [int], [str] and [yaml.dump] belong to the Python
    interpreter and its libraries, not to the program.  The program is
    modelled over any implementation of them. *)
Record interpreter : Type := {
  str_lower : string -> string;        (* s.lower() *)
  str_upper : string -> string;        (* s.upper() *)
  str_capitalize : string -> string;   (* s.capitalize() *)
  str_strip : string -> string;        (* s.strip() *)
  str_isdigit : string -> bool;        (* s.isdigit() *)
  int_of_str : string -> option Z;     (* int(s); None is ValueError *)
  str_of : pyval -> string;            (* str(v) for v that is not a string *)
  str_of_exn : exn -> string;          (* str(e) *)
  yaml_dump : pyval -> string          (* yaml.dump(config, ...) *)
}.

(** ** The transformation layer *)

Section Extractor.

Variable py : interpreter.

(** [v.lower()] and [v.upper()]: only strings have the methods. *)
Definition py_lower (v : pyval) : result string :=
  match v with
  | PStr s => Ok (str_lower py s)
  | _ => Raise (AttributeError v "lower")
  end.

Definition py_upper (v : pyval) : result string :=
  match v with
  | PStr s => Ok (str_upper py s)
  | _ => Raise (AttributeError v "upper")
  end.

(** [[pattern for pattern in patterns if pattern.get("enabled", False)]] *)
Fixpoint filter_enabled_patterns (patterns : list pyval)
  : result (list pyval) :=
  match patterns with
  | [] => Ok []
  | pattern :: rest =>
      enabled ← py_get pattern "enabled" (PBool false);
      kept ← filter_enabled_patterns rest;
      Ok (if truthy enabled then pattern :: kept else kept)
  end.

(** [set(lang.lower() for lang in
         pattern.get("patternDefinition", {}).get("languages", []))] *)
Definition lowered_languages (pattern_def : pyval) : result (gset string) :=
  pattern_languages ← py_get pattern_def "languages" (PList []);
  langs ← py_iter pattern_languages;
  lowered ← result_map py_lower langs;
  Ok (list_to_set lowered).

(** The [for] loop of [get_available_languages], on the set it updates. *)
Fixpoint collect_languages (patterns : list pyval) (languages : gset string)
  : result (gset string) :=
  match patterns with
  | [] => Ok languages
  | pattern :: rest =>
      pattern_def ← py_get pattern "patternDefinition" (PDict []);
      lowered ← lowered_languages pattern_def;
      collect_languages rest (languages ∪ lowered)
  end.

Definition get_available_languages (patterns : list pyval)
  : result (list string) :=
  languages ← collect_languages patterns ∅;
  Ok (sorted (elements languages)).

(** The loop of [format_rule_id] that keeps the first occurrence of each
    part: [if part not in unique_parts: unique_parts.append(part)]. *)
Definition unique_parts_of (parts : list string) : list string :=
  fold_left
    (fun unique_parts part =>
       if bool_decide (part ∈ unique_parts) then unique_parts
       else (unique_parts ++ [part])%list)
    parts [].

(** [v.split(c)]: only strings have the method. *)
Definition py_split (c : ascii) (v : pyval) : result (list string) :=
  match v with
  | PStr s => Ok (str_split c s)
  | _ => Raise (AttributeError v "split")
  end.

Definition format_rule_id (pattern_def : pyval) : result pyval :=
  pattern_id ← py_get pattern_def "id" (PStr "");
  has_dot ← py_in "." pattern_id;
  pattern_id ← (if has_dot : bool
                then parts ← py_split "." pattern_id;
                     Ok (PStr (List.last parts ""))
                else Ok pattern_id);
  has_hyphen ← py_in "-" pattern_id;
  pattern_id ← (if has_hyphen : bool
                then parts ← py_split "-" pattern_id;
                     Ok (PStr (str_join "-" (unique_parts_of parts)))
                else Ok pattern_id);
  Ok (if truthy pattern_id then pattern_id else PStr "unknown-rule").

(** The body of the [for] loop of [create_semgrep_config]: [None] when the
    pattern is skipped by [continue], the rule otherwise. *)
Definition rule_of_pattern (selected_languages : list string)
    (pattern : pyval) : result (option pyval) :=
  pattern_def ← py_get pattern "patternDefinition" (PDict []);
  pattern_languages ← lowered_languages pattern_def;
  let common : gset string :=
    pattern_languages ∩ list_to_set selected_languages in
  if bool_decide (common = ∅) then Ok None
  else
    rule_id ← format_rule_id pattern_def;
    let rule := [("id", rule_id);
                 ("languages", PList (PStr <$> elements common))] in
    message ← py_get pattern_def "description" PNone;
    let rule := if truthy message then dict_set "message" message rule
                else rule in
    severity ← py_get pattern "severity" (PStr "WARNING");
    rule ← (if truthy severity
            then upper ← py_upper severity;
                 Ok (dict_set "severity" (PStr upper) rule)
            else Ok rule);
    has_pattern ← py_in "pattern" pattern_def;
    rule ← (if has_pattern : bool
            then p ← py_getitem pattern_def "pattern";
                 Ok (dict_set "pattern" p rule)
            else Ok (dict_set "pattern" (PStr "{}") rule));
    Ok (Some (PDict rule)).

(** The [for] loop of [create_semgrep_config], on the list it appends to. *)
Fixpoint collect_rules (selected_languages : list string)
    (patterns : list pyval) (rules : list pyval) : result (list pyval) :=
  match patterns with
  | [] => Ok rules
  | pattern :: rest =>
      produced ← rule_of_pattern selected_languages pattern;
      collect_rules selected_languages rest
        (match produced with
         | Some rule => (rules ++ [rule])%list
         | None => rules
         end)
  end.

Definition create_semgrep_config (patterns : list pyval)
    (selected_languages : list string) : result pyval :=
  rules ← collect_rules selected_languages patterns [];
  Ok (PDict [("rules", PList rules)]).

(** ** The interactive and network layer *)

Variable CODACY_API_TOKEN : option string.

Definition CODACY_API_BASE_URL : string := "https://api.codacy.com/api/v3".

Definition VALID_PROVIDERS : list (string * string) :=
  [("gh", "GitHub"); ("ghe", "GitHub Enterprise");
   ("bb", "Bitbucket"); ("gl", "GitLab")].

Definition SEMGREP_UUID : string := "6792c561-236d-41b7-ba5e-9d6bee0d548b".

(** [f"{v}"] *)
Definition py_str (v : pyval) : string :=
  match v with
  | PStr s => s
  | _ => str_of py v
  end.

(** The [while] loop of [select_provider]; [tries] bounds the lines left to
    read. *)
Fixpoint select_provider_loop (tries : nat) : IO string :=
  match tries with
  | O => fun _ => None
  | S tries' =>
      line ← input (LF ++ "Enter the provider code (gh/ghe/bb/gl): ");
      let provider := str_lower py line in
      if bool_decide (provider ∈ VALID_PROVIDERS.*1) then mret provider
      else print "Invalid provider. Please try again.";;
           select_provider_loop tries'
  end.

Definition select_provider : IO string :=
  print (LF ++ "Available providers:");;
  io_for VALID_PROVIDERS
    (fun item => print ("  " ++ item.1 ++ ": " ++ item.2));;
  pending ← pending_lines;
  select_provider_loop (S pending).

Definition get_coding_standards (organization provider : string) : IO pyval :=
  let url := CODACY_API_BASE_URL ++ "/organizations/" ++ provider ++ "/"
             ++ organization ++ "/coding-standards" in
  body ← http_get_json url;
  coding_standards ← lift (py_getitem body "data");
  print (CR ++ "Fetched coding standards  ");;
  mret coding_standards.

(** The [while] loop of [select_coding_standard]. *)
Fixpoint select_coding_standard_loop (coding_standards : pyval) (tries : nat)
  : IO pyval :=
  match tries with
  | O => fun _ => None
  | S tries' =>
      line ← input (LF ++ "Enter the number of the coding standard you want to use: ");
      match int_of_str py line with
      | None =>
          print "Please enter a valid number.";;
          select_coding_standard_loop coding_standards tries'
      | Some selection =>
          n ← lift (py_len coding_standards);
          if bool_decide (1 ≤ selection ≤ n)%Z
          then lift (py_index coding_standards (Z.to_nat (selection - 1)))
          else print "Invalid selection. Please try again.";;
               select_coding_standard_loop coding_standards tries'
      end
  end.

Definition select_coding_standard (coding_standards : pyval) : IO pyval :=
  print (LF ++ "Available coding standards:");;
  standards ← lift (py_iter coding_standards);
  io_for (enumerate1 standards)
    (fun item =>
       name ← lift (py_getitem item.2 "name");
       print (py_str (PInt item.1) ++ ". " ++ py_str name));;
  pending ← pending_lines;
  select_coding_standard_loop coding_standards (S pending).

Definition get_tools_for_coding_standard
    (organization provider coding_standard_id : string) : IO pyval :=
  let url := CODACY_API_BASE_URL ++ "/organizations/" ++ provider ++ "/"
             ++ organization ++ "/coding-standards/" ++ coding_standard_id
             ++ "/tools" in
  body ← http_get_json url;
  tools ← lift (py_getitem body "data");
  print (CR ++ "Fetched tools for coding standard  ");;
  mret tools.

(** The [for] loop of [get_tool_by_uuid]. *)
Fixpoint find_tool (tools : list pyval) (tool_uuid : string) : result pyval :=
  match tools with
  | [] => Ok PNone
  | tool :: rest =>
      uuid ← py_get tool "uuid" PNone;
      if py_eq_str uuid tool_uuid then Ok tool else find_tool rest tool_uuid
  end.

Definition get_tool_by_uuid (tools : pyval) (tool_uuid : string)
  : result pyval :=
  items ← py_iter tools;
  find_tool items tool_uuid.

(** The URL of a page request: the cursor is appended when it is truthy. *)
Definition patterns_url (organization provider coding_standard_id
                         tool_uuid : string) : string :=
  CODACY_API_BASE_URL ++ "/organizations/" ++ provider ++ "/" ++ organization
  ++ "/coding-standards/" ++ coding_standard_id ++ "/tools/" ++ tool_uuid
  ++ "/patterns?limit=1000".

Definition page_url (url : string) (cursor : pyval) : string :=
  if truthy cursor then url ++ "&cursor=" ++ py_str cursor else url.

(** The [while True] loop of [get_code_patterns_for_tool], on the list it
    extends and the cursor it carries; [fuel] bounds the pages fetched. *)
Fixpoint fetch_pages (fuel : nat) (url : string) (patterns : list pyval)
    (cursor : pyval) : IO (list pyval) :=
  match fuel with
  | O => fun _ => None
  | S fuel' =>
      data ← http_get_json (page_url url cursor);
      page ← lift (py_getitem data "data" ≫= py_iter);
      let patterns := (patterns ++ page)%list in
      pagination ← lift (py_get data "pagination" (PDict []));
      cursor ← lift (py_get pagination "cursor" PNone);
      if truthy cursor then fetch_pages fuel' url patterns cursor
      else mret patterns
  end.

Definition get_code_patterns_for_tool (fuel : nat)
    (organization provider coding_standard_id tool_uuid : string)
  : IO (list pyval) :=
  fetch_pages fuel
    (patterns_url organization provider coding_standard_id tool_uuid)
    [] PNone.

Definition get_user_selected_languages (available_languages : list string)
  : IO (list string) :=
  print (LF ++ "Available languages:");;
  io_for (enumerate1 available_languages)
    (fun item => print (py_str (PInt item.1) ++ ". " ++ str_capitalize py item.2));;
  line ← input (LF ++ "Enter the numbers of the languages you want to include (comma-separated): ");
  selected_indices ←
    lift (result_map
            (fun idx => match int_of_str py (str_strip py idx) with
                        | Some n => Ok n
                        | None => Raise (ValueError (str_strip py idx))
                        end)
            (filter (fun idx => str_isdigit py (str_strip py idx) = true)
                    (str_split "," line)));
  lift (result_map
          (fun idx => match nth_error available_languages (Z.to_nat (idx - 1)) with
                      | Some lang => Ok lang
                      | None => Raise IndexError
                      end)
          (filter (fun idx => (1 ≤ idx ≤ Z.of_nat (length available_languages))%Z)
                  selected_indices)).

Definition config_header : string :=
  "# This file contains Semgrep rules generated from Codacy configuration" ++ LF ++
  "# See https://semgrep.dev for more information about Semgrep" ++ LF ++
  "#" ++ LF ++
  "# You can use this file locally with:" ++ LF ++
  "#  - semgrep --config semgrep_config.yaml ." ++ LF ++
  "#" ++ LF ++
  "# For more information about rule syntax, visit:" ++ LF ++
  "# https://semgrep.dev/docs/writing-rules/rule-syntax/" ++ LF ++ LF.

Definition save_semgrep_config (config : pyval) (filename : string) : IO unit :=
  write_file filename (config_header ++ yaml_dump py config).

Record arguments : Type := {
  organization : option string;
  provider : option string;
  tool : string;
  output : string
}.

(** [if a:] on an optional command-line argument. *)
Definition given (a : option string) : option string :=
  match a with
  | Some s => if String.eqb s "" then None else Some s
  | None => None
  end.

(** The body of the [try] block of [main]. *)
Definition main_try (fuel : nat) (args : arguments) : IO unit :=
  selected_provider ← match given (provider args) with
                      | Some p => mret p
                      | None => select_provider
                      end;
  provider_name ← lift (match list_find (fun item => item.1 = selected_provider)
                                        VALID_PROVIDERS with
                        | Some (_, item) => Ok item.2
                        | None => Raise (KeyError (PStr selected_provider))
                        end);
  print (LF ++ "Using provider: " ++ provider_name);;
  selected_organization ← match given (organization args) with
                          | Some o => mret o
                          | None => input "Enter the Codacy organization name: "
                          end;
  print ("Using organization: " ++ selected_organization);;
  coding_standards ← get_coding_standards selected_organization selected_provider;
  (if truthy coding_standards then mret tt
   else io_raise (ExceptionMsg ("No Coding Standards found for org "
                                ++ selected_organization)));;
  selected_standard ← select_coding_standard coding_standards;
  coding_standard_id ← lift (py_getitem selected_standard "id");
  name ← lift (py_getitem selected_standard "name");
  print (LF ++ "Selected coding standard: " ++ py_str name
         ++ " (ID: " ++ py_str coding_standard_id ++ ")");;
  tools ← get_tools_for_coding_standard selected_organization selected_provider
            (py_str coding_standard_id);
  count ← lift (py_len tools);
  print ("Found " ++ py_str (PInt count) ++ " tools for the coding standard");;
  selected_tool ← lift (get_tool_by_uuid tools (tool args));
  if negb (truthy selected_tool) then
    print ("Tool with UUID '" ++ tool args ++ "' not found. Available tools:");;
    items ← lift (py_iter tools);
    io_for items
      (fun item =>
         name ← lift (py_get item "name" (PStr "Unknown"));
         print ("- Name: " ++ py_str name);;
         uuid ← lift (py_get item "uuid" (PStr "Unknown UUID"));
         print ("  UUID: " ++ py_str uuid))
  else
    name ← lift (py_get selected_tool "name" (PStr "Unknown"));
    uuid ← lift (py_getitem selected_tool "uuid");
    print (LF ++ "Selected tool: " ++ py_str name
           ++ " (UUID: " ++ py_str uuid ++ ")");;
    uuid ← lift (py_getitem selected_tool "uuid");
    tool_patterns ← get_code_patterns_for_tool fuel selected_organization
                      selected_provider (py_str coding_standard_id) (py_str uuid);
    print ("Found " ++ py_str (PInt (Z.of_nat (length tool_patterns)))
           ++ " patterns in total");;
    enabled_patterns ← lift (filter_enabled_patterns tool_patterns);
    print ("Found " ++ py_str (PInt (Z.of_nat (length enabled_patterns)))
           ++ " enabled patterns");;
    available_languages ← lift (get_available_languages enabled_patterns);
    selected_languages ← get_user_selected_languages available_languages;
    print ("Selected languages: " ++ str_join ", " selected_languages);;
    semgrep_config ← lift (create_semgrep_config enabled_patterns selected_languages);
    save_semgrep_config semgrep_config (output args);;
    print (LF ++ "Semgrep configuration has been saved to " ++ output args);;
    rules ← lift (py_getitem semgrep_config "rules");
    count ← lift (py_len rules);
    print ("Total rules added to config file: " ++ py_str (PInt count)).

(** How a call of [main] ends: it returns, or an exception leaves it. *)
Inductive ending : Type :=
| Returned
| Uncaught (e : exn).

(** The exit status of [python extractor.py]: 0 when [main] returns, 1 when
    an exception leaves it. *)
Definition exit_status (e : ending) : Z :=
  match e with
  | Returned => 0
  | Uncaught _ => 1
  end.

(** [except requests.RequestException] *)
Definition is_request_exception (e : exn) : bool :=
  match e with
  | RequestException _ => true
  | _ => false
  end.

(** The [except] clauses of [main], applied to the exception that left the
    [try] block. *)
Definition main_except (e : exn) (w : World) : World :=
  if is_request_exception e
  then with_stdout (stdout w ++ ["Error accessing Codacy API: " ++ str_of_exn py e]) w
  else with_traceback e
         (with_stdout (stdout w ++ ["An error occurred: " ++ str_of_exn py e]) w).

Definition main (fuel : nat) (args : arguments) (w : World)
  : option (ending * World) :=
  match given CODACY_API_TOKEN with
  | None =>
      Some (Uncaught (ValueError "CODACY_API_TOKEN environment variable is not set"), w)
  | Some _ =>
      match main_try fuel args w with
      | None => None
      | Some (Ok _, w') => Some (Returned, w')
      | Some (Raise e, w') => Some (Returned, main_except e w')
      end
  end.

End Extractor.


(** ** The vocabulary of the specification *)

(** A pattern record as the data model has it: a dictionary. *)
Definition is_pattern (v : pyval) : bool :=
  match v with
  | PDict _ => true
  | _ => false
  end.

(** The pattern's [enabled] attribute is truthy; an absent attribute counts
    as [False]. *)
Definition enabled (pattern : pyval) : bool :=
  match pattern with
  | PDict d =>
      match dict_lookup "enabled" d with
      | Some v => truthy v
      | None => false
      end
  | _ => false
  end.

(** The text of [s] after its last [c]; all of [s] when [c] does not occur. *)
Fixpoint after_last (c : ascii) (s : string) : string :=
  match s with
  | "" => ""
  | String a s' =>
      if str_contains (String c "") s' then after_last c s'
      else if Ascii.eqb a c then s' else s
  end.

(** The first occurrence of each part, in left-to-right order: a part equal
    to one already kept is dropped. *)
Fixpoint first_occurrences (parts : list string) : list string :=
  match parts with
  | [] => []
  | p :: ps => p :: filter (fun q => q <> p) (first_occurrences ps)
  end.

(** The rule-id simplification, in the words of the specification. *)
Definition simplified_rule_id (id : string) : string :=
  let id := if str_contains "." id then after_last "." id else id in
  let id := if str_contains "-" id
            then str_join "-" (first_occurrences (str_split "-" id))
            else id in
  if String.eqb id "" then "unknown-rule" else id.


(** ** A reference interpreter

    The built-ins on ASCII text, to run the program on examples: the case
    mappings act on the letters [A-Z] and [a-z], [strip] removes blanks,
    tabs and line breaks, [isdigit] accepts the non-empty strings of digits
    [0-9], [int] reads an optionally signed decimal numeral between blanks,
    [str] is exact on [None], booleans and integers, and [yaml.dump] lists
    the rules of a configuration one field per line without quoting. *)

Definition ascii_lower (c : ascii) : ascii :=
  let n := nat_of_ascii c in
  if ((65 <=? n) && (n <=? 90))%nat then ascii_of_nat (n + 32) else c.

Definition ascii_upper (c : ascii) : ascii :=
  let n := nat_of_ascii c in
  if ((97 <=? n) && (n <=? 122))%nat then ascii_of_nat (n - 32) else c.

Fixpoint string_map (f : ascii -> ascii) (s : string) : string :=
  match s with
  | "" => ""
  | String c s' => String (f c) (string_map f s')
  end.

Definition ascii_blank (c : ascii) : bool :=
  let n := nat_of_ascii c in
  ((n =? 32) || ((9 <=? n) && (n <=? 13)))%nat.

Fixpoint strip_left (s : string) : string :=
  match s with
  | "" => ""
  | String c s' => if ascii_blank c then strip_left s' else s
  end.

Definition string_rev (s : string) : string :=
  string_of_list_ascii (rev (list_ascii_of_string s)).

Definition ascii_strip (s : string) : string :=
  string_rev (strip_left (string_rev (strip_left s))).

Definition ascii_digit (c : ascii) : bool :=
  let n := nat_of_ascii c in ((48 <=? n) && (n <=? 57))%nat.

Definition ascii_isdigit (s : string) : bool :=
  match s with
  | "" => false
  | _ => forallb ascii_digit (list_ascii_of_string s)
  end.

Definition decimal_of_str (s : string) : option Z :=
  let s := ascii_strip s in
  let s := match s with
           | String "+" (String c s') =>
               if ascii_digit c then String c s' else s
           | _ => s
           end in
  Z.of_int <$> NilZero.int_of_string s.

Definition str_of_int (z : Z) : string := NilZero.string_of_int (Z.to_int z).

Definition type_name (v : pyval) : string :=
  match v with
  | PNone => "NoneType"
  | PBool _ => "bool"
  | PInt _ => "int"
  | PFloat _ => "float"
  | PStr _ => "str"
  | PList _ => "list"
  | PDict _ => "dict"
  end.

Definition str_of_value (v : pyval) : string :=
  match v with
  | PNone => "None"
  | PBool true => "True"
  | PBool false => "False"
  | PInt z => str_of_int z
  | PStr s => s
  | _ => "<" ++ type_name v ++ ">"
  end.

Definition str_of_exception (e : exn) : string :=
  match e with
  | AttributeError v attr =>
      "'" ++ type_name v ++ "' object has no attribute '" ++ attr ++ "'"
  | TypeError v => "unsupported operand of type '" ++ type_name v ++ "'"
  | KeyError k => match k with
                  | PStr s => "'" ++ s ++ "'"
                  | _ => str_of_value k
                  end
  | IndexError => "list index out of range"
  | ValueError msg => msg
  | EOFError => "EOF when reading a line"
  | OSError path => "[Errno 13] Permission denied: '" ++ path ++ "'"
  | RequestException msg => msg
  | ExceptionMsg msg => msg
  end.

Definition dump_field (indent : string) (item : string * pyval) : string :=
  match item.2 with
  | PList l =>
      indent ++ item.1 ++ ":" ++ LF ++
      String.concat "" ((fun v => "  - " ++ str_of_value v ++ LF) <$> l)
  | v => indent ++ item.1 ++ ": " ++ str_of_value v ++ LF
  end.

Definition dump_rule (rule : pyval) : string :=
  match rule with
  | PDict (first :: fields) =>
      dump_field "- " first ++ String.concat "" (dump_field "  " <$> fields)
  | _ => "- " ++ str_of_value rule ++ LF
  end.

Definition dump_config (config : pyval) : string :=
  match config with
  | PDict d =>
      String.concat ""
        ((fun item => match item.2 with
                      | PList rules =>
                          item.1 ++ ":" ++ LF ++ String.concat "" (dump_rule <$> rules)
                      | v => item.1 ++ ": " ++ str_of_value v ++ LF
                      end) <$> d)
  | v => str_of_value v ++ LF
  end.

Definition ascii_python : interpreter := {|
  str_lower := string_map ascii_lower;
  str_upper := string_map ascii_upper;
  str_capitalize := fun s => match s with
                             | "" => ""
                             | String c s' =>
                                 String (ascii_upper c) (string_map ascii_lower s')
                             end;
  str_strip := ascii_strip;
  str_isdigit := ascii_isdigit;
  int_of_str := decimal_of_str;
  str_of := str_of_value;
  str_of_exn := str_of_exception;
  yaml_dump := dump_config
|}.

(** ** The vocabulary of the properties *)

(** *** The operator's choices *)

(** The prompt of [select_provider]. *)
Definition provider_prompt : string :=
  LF ++ "Enter the provider code (gh/ghe/bb/gl): ".

(** A record with a [name]: what [select_coding_standard] lists. *)
Definition has_name (standard : pyval) : bool :=
  match standard with
  | PDict d => match dict_lookup "name" d with Some _ => true | None => false end
  | _ => false
  end.

(** The prompt of [select_coding_standard]. *)
Definition standard_prompt : string :=
  LF ++ "Enter the number of the coding standard you want to use: ".

(** A line that selects one of [n] listed items: an integer from 1 to [n]. *)
Definition selects (py : interpreter) (n : nat) (line : string) : Prop :=
  match int_of_str py line with
  | Some selection => (1 ≤ selection ≤ Z.of_nat n)%Z
  | None => False
  end.

(** What the loop of [select_coding_standard] answers to a line that selects
    nothing. *)
Definition standard_retry (py : interpreter) (line : string) : string :=
  match int_of_str py line with
  | Some _ => "Invalid selection. Please try again."
  | None => "Please enter a valid number."
  end.

(** The prompt of [get_user_selected_languages]. *)
Definition languages_prompt : string :=
  LF ++ "Enter the numbers of the languages you want to include (comma-separated): ".

(** A tool record whose [uuid] is the string [tool_uuid]. *)
Definition has_uuid (tool_uuid : string) (tool : pyval) : bool :=
  match tool with
  | PDict d =>
      match dict_lookup "uuid" d with
      | Some (PStr s) => String.eqb s tool_uuid
      | _ => false
      end
  | _ => false
  end.

(** A JSON object. *)
Definition is_dict (v : pyval) : bool :=
  match v with
  | PDict _ => true
  | _ => false
  end.

(** *** Pages *)

(** What the walker reads from a response body that is a page: the [data]
    list and the cursor of the [pagination] object, [None] when the object or
    its [cursor] is missing. *)
Definition page_of (body : pyval) : option (list pyval * pyval) :=
  match body with
  | PDict d =>
      match dict_lookup "data" d with
      | Some (PList data) =>
          match dict_lookup "pagination" d with
          | None => Some (data, PNone)
          | Some (PDict pagination) =>
              Some (data, match dict_lookup "cursor" pagination with
                          | Some cursor => cursor
                          | None => PNone
                          end)
          | Some _ => None
          end
      | _ => None
      end
  | _ => None
  end.

(** The world after the requests [urls]. *)
Definition with_requests (urls : list string) (w : World) : World :=
  {| service := service w; requests := requests w ++ urls;
     stdin := stdin w; stdout := stdout w; stderr := stderr w;
     writable := writable w; files := files w |}.

(** The URL that asks for the page after the one that carried [cursor]. *)
Definition next_page_url (py : interpreter) (url : string) (cursor : pyval)
  : string :=
  url ++ "&cursor=" ++ py_str py cursor.

(** The requests that fetch a sequence of pages, from [request] on: each
    later one carries the cursor of the page before it. *)
Fixpoint page_requests (py : interpreter) (url request : string)
    (pages : list (list pyval * pyval)) : list string :=
  match pages with
  | [] => []
  | page :: rest =>
      request :: page_requests py url (next_page_url py url page.2) rest
  end.

(** The service, after the requests [history], answers [request] with the
    first of [pages], and the request that carries each page's cursor with
    the page after it. *)
Fixpoint serves (py : interpreter) (service : list string -> string -> result pyval)
    (history : list string) (url request : string)
    (pages : list (list pyval * pyval)) : Prop :=
  match pages with
  | [] => True
  | page :: rest =>
      (exists body, service history request = Ok body /\ page_of body = Some page) /\
      serves py service (history ++ [request]) url
        (next_page_url py url page.2) rest
  end.

(** The cursor the walker holds after a sequence of pages, [cursor] before
    them. *)
Definition cursor_after (cursor : pyval) (pages : list (list pyval * pyval))
  : pyval :=
  fold_left (fun _ page => page.2) pages cursor.

(** *** Patterns *)

(** The strings of a list of strings; nothing for a list that holds
    anything else. *)
Fixpoint as_strings (l : list pyval) : option (list string) :=
  match l with
  | [] => Some []
  | PStr s :: l' => cons s <$> as_strings l'
  | _ :: _ => None
  end.

(** The [patternDefinition] of a pattern record: an empty object when the
    record has none, nothing when it is not an object. *)
Definition definition_of (d : list (string * pyval))
  : option (list (string * pyval)) :=
  match dict_lookup "patternDefinition" d with
  | None => Some []
  | Some (PDict pd) => Some pd
  | Some _ => None
  end.

(** The languages a pattern record declares: the strings of the list
    [languages] of its [patternDefinition], none when either is missing. *)
Definition declared_languages (pattern : pyval) : option (list string) :=
  match pattern with
  | PDict d =>
      match definition_of d with
      | Some pd =>
          match dict_lookup "languages" pd with
          | None => Some []
          | Some (PList l) => as_strings l
          | Some _ => None
          end
      | None => None
      end
  | _ => None
  end.

(** [l] is the lower-cased form of a language that one of [patterns]
    declares. *)
Definition declares (py : interpreter) (patterns : list pyval) (l : string)
  : Prop :=
  exists pattern declared lang,
    pattern ∈ patterns /\ declared_languages pattern = Some declared /\
    lang ∈ declared /\ l = str_lower py lang.

(** A pattern record whose definition [create_semgrep_config] can read: an
    object whose languages are declared as strings and whose definition has
    a string for [id], or no [id]. *)
Definition well_defined (pattern : pyval) : bool :=
  match pattern with
  | PDict d =>
      match definition_of d, declared_languages pattern with
      | Some pd, Some _ =>
          match dict_lookup "id" pd with
          | None | Some (PStr _) => true
          | Some _ => false
          end
      | _, _ => false
      end
  | _ => false
  end.

(** A pattern record that [create_semgrep_config] can turn into a rule: its
    definition can be read and its [severity] is a string, or is missing, or
    is falsy. *)
Definition well_formed (pattern : pyval) : bool :=
  well_defined pattern &&
  match pattern with
  | PDict d =>
      match dict_lookup "severity" d with
      | None | Some (PStr _) => true
      | Some v => negb (truthy v)
      end
  | _ => false
  end.

(** One of the languages the pattern declares is, lower-cased, among the
    selected ones. *)
Definition qualifies (py : interpreter) (selected_languages : list string)
    (pattern : pyval) : bool :=
  match declared_languages pattern with
  | Some declared =>
      existsb (fun lang => bool_decide (str_lower py lang ∈ selected_languages))
        declared
  | None => false
  end.

(** The [message] of a rule: the description, when there is a truthy one. *)
Definition message_field (pd : list (string * pyval))
  : list (string * pyval) :=
  match dict_lookup "description" pd with
  | Some message => if truthy message then [("message", message)] else []
  | None => []
  end.

(** The [severity] of a rule: the upper-cased severity of the pattern,
    ["WARNING"] standing for a missing one; none when the severity is
    falsy. *)
Definition severity_field (py : interpreter) (d : list (string * pyval))
  : list (string * pyval) :=
  match dict_lookup "severity" d with
  | None => [("severity", PStr (str_upper py "WARNING"))]
  | Some (PStr s) =>
      if String.eqb s "" then [] else [("severity", PStr (str_upper py s))]
  | Some _ => []
  end.

(** The [pattern] of a rule: the value under the key [pattern] of the
    definition, whatever it is, and ["{}"] when the key is missing. *)
Definition pattern_field (pd : list (string * pyval))
  : list (string * pyval) :=
  [("pattern", match dict_lookup "pattern" pd with
               | Some p => p
               | None => PStr "{}"
               end)].

(** [rule] is the rule of [pattern] for the selected languages. *)
Definition rule_of (py : interpreter) (selected_languages : list string)
    (pattern rule : pyval) : Prop :=
  exists d pd declared rule_id languages,
    pattern = PDict d /\ definition_of d = Some pd /\
    declared_languages pattern = Some declared /\
    format_rule_id (PDict pd) = Ok rule_id /\
    NoDup languages /\ languages <> [] /\
    (forall l, l ∈ languages <->
               l ∈ (str_lower py <$> declared) /\ l ∈ selected_languages) /\
    rule = PDict ([("id", rule_id); ("languages", PList (PStr <$> languages))]
                  ++ message_field pd ++ severity_field py d
                  ++ pattern_field pd).

(** *** What a run may change *)

(** A URL of the Codacy API. *)
Definition api_url (url : string) : bool :=
  String.prefix (CODACY_API_BASE_URL ++ "/organizations/") url.

(** From [w] to [w'] the service and the file system's permissions are the
    same, requests were made of the Codacy API only, lines were read from
    the input, lines were printed, tracebacks were printed, and at most [n]
    files were written, all of them at [path] and beginning with the header
    of a configuration. *)
Definition extends (n : nat) (path : string) (w w' : World) : Prop :=
  service w' = service w /\ writable w' = writable w /\
  (exists asked,
     requests w' = (requests w ++ asked)%list /\
     Forall (fun url => api_url url = true) asked) /\
  (exists read, stdin w = (read ++ stdin w')%list) /\
  (exists printed, stdout w' = (stdout w ++ printed)%list) /\
  (exists traced, stderr w' = (stderr w ++ traced)%list) /\
  (exists written,
     files w' = (written ++ files w)%list /\ length written <= n /\
     Forall (fun file : string * string =>
               file.1 = path /\ String.prefix config_header file.2 = true)
       written).

(** Every run of [m] that has ended made such a change. *)
Definition io_frame {A : Type} (n : nat) (path : string) (m : IO A) : Prop :=
  forall w r w', m w = Some (r, w') -> extends n path w w'.

(** What [get_user_selected_languages] makes of the line it reads: the
    languages at the positions that the parts of the line number. *)
Definition chosen_languages (py : interpreter)
    (available_languages : list string) (line : string)
  : result (list string) :=
  selected_indices ←
    result_map
      (fun idx => match int_of_str py (str_strip py idx) with
                  | Some n => Ok n
                  | None => Raise (ValueError (str_strip py idx))
                  end)
      (filter (fun idx => str_isdigit py (str_strip py idx) = true)
              (str_split "," line));
  result_map
    (fun idx => match nth_error available_languages (Z.to_nat (idx - 1)) with
                | Some lang => Ok lang
                | None => Raise IndexError
                end)
    (filter (fun idx => (1 ≤ idx ≤ Z.of_nat (length available_languages))%Z)
            selected_indices).

(** ** Examples *)

(** A console with no service behind it: every request fails. *)
Definition console (lines : list string) : World :=
  {| service := fun _ _ => Raise (RequestException "503 Server Error");
     requests := []; stdin := lines; stdout := []; stderr := [];
     writable := fun _ => true; files := [] |}.

(** The same console before a service. *)
Definition served (answers : list string -> string -> result pyval)
    (lines : list string) : World :=
  {| service := answers;
     requests := []; stdin := lines; stdout := []; stderr := [];
     writable := fun _ => true; files := [] |}.

Definition example_standards : list pyval :=
  [PDict [("id", PStr "101"); ("name", PStr "Default")];
   PDict [("id", PStr "102"); ("name", PStr "Strict")]].

Definition eslint : pyval :=
  PDict [("uuid", PStr "f8b29663-2cb2-498d-b923-a10c6a8c05cd");
         ("name", PStr "ESLint")].

Definition example_tools : list pyval :=
  [eslint; PDict [("uuid", PStr SEMGREP_UUID); ("name", PStr "Semgrep")]].

Definition example_patterns : list pyval :=
  [PDict [("id", PStr "Semgrep_python.lang.security.audit.eval-detected");
          ("enabled", PBool true);
          ("severity", PStr "Error");
          ("patternDefinition",
           PDict [("id", PStr "python.lang.security.audit.eval-detected");
                  ("description", PStr "Detected the use of eval().");
                  ("languages", PList [PStr "Python"; PStr "Go"])])];
   PDict [("id", PStr "Semgrep_js.no-unused-vars-no-unused-vars");
          ("enabled", PBool false);
          ("severity", PStr "");
          ("patternDefinition",
           PDict [("id", PStr "eslint.no-unused-vars-no-unused-vars");
                  ("languages", PList [PStr "JavaScript"; PStr "python"]);
                  ("pattern", PNone)])];
   PDict [("id", PStr "Semgrep_unclassified"); ("enabled", PBool true)]].

(** A pattern whose severity is a number. *)
Definition numbered_pattern : list (string * pyval) :=
  [("severity", PInt 3);
   ("patternDefinition",
    PDict [("id", PStr "go.lang.audit"); ("languages", PList [PStr "GO"])])].

(** A response body: a page of items, with a cursor or without. *)
Definition page_body (data : list pyval) (cursor : option string) : pyval :=
  PDict [("data", PList data);
         ("pagination", PDict match cursor with
                              | Some c => [("cursor", PStr c)]
                              | None => []
                              end)].

Definition example_url : string :=
  patterns_url "acme" "gh" "101" SEMGREP_UUID.

(** A service with three pages of patterns. *)
Definition three_pages (history : list string) (url : string) : result pyval :=
  if String.eqb url example_url
  then Ok (page_body [PStr "p1"; PStr "p2"] (Some "c1"))
  else if String.eqb url (example_url ++ "&cursor=c1")
  then Ok (page_body [PStr "p3"] (Some "c2"))
  else if String.eqb url (example_url ++ "&cursor=c2")
  then Ok (page_body [PStr "p4"; PStr "p5"] None)
  else Raise (RequestException "404 Client Error").

(** A service that fails after its first page. *)
Definition one_page (history : list string) (url : string) : result pyval :=
  match history with
  | [] => Ok (page_body [PStr "p1"; PStr "p2"] (Some "c1"))
  | _ :: _ => Raise (RequestException "503 Server Error")
  end.

(** A service that always has one more page. *)
Definition endless (history : list string) (url : string) : result pyval :=
  Ok (page_body [PStr "p"] (Some "more")).

(** A service of an organization without coding standards. *)
Definition no_standards (history : list string) (url : string) : result pyval :=
  Ok (PDict [("data", PList [])]).

Definition standards_url : string :=
  CODACY_API_BASE_URL ++ "/organizations/gh/acme/coding-standards".

(** A service whose first coding standard has no Semgrep. *)
Definition without_semgrep (history : list string) (url : string)
  : result pyval :=
  if String.eqb url standards_url
  then Ok (PDict [("data", PList example_standards)])
  else if String.eqb url (standards_url ++ "/101/tools")
  then Ok (PDict [("data", PList [eslint])])
  else Raise (RequestException "404 Client Error").

(** A service with two coding standards, two tools and two pages of
    patterns. *)
Definition acme (history : list string) (url : string) : result pyval :=
  if String.eqb url standards_url
  then Ok (PDict [("data", PList example_standards)])
  else if String.eqb url (standards_url ++ "/101/tools")
  then Ok (PDict [("data", PList example_tools)])
  else if String.eqb url example_url
  then Ok (page_body (take 2 example_patterns) (Some "c1"))
  else if String.eqb url (example_url ++ "&cursor=c1")
  then Ok (page_body (drop 2 example_patterns) None)
  else Raise (RequestException "404 Client Error").

(** The configuration of the enabled patterns of the examples for Go. *)
Definition example_config : pyval :=
  PDict [("rules",
          PList [PDict [("id", PStr "eval-detected");
                        ("languages", PList [PStr "go"]);
                        ("message", PStr "Detected the use of eval().");
                        ("severity", PStr "ERROR");
                        ("pattern", PStr "{}")]])].

Definition example_arguments : arguments :=
  {| organization := Some "acme"; provider := Some "gh";
     tool := SEMGREP_UUID; output := "semgrep_config.yaml" |}.


Section Properties.

Variable py : interpreter.

(** *** The result monad *)

Lemma bind_Ok {A B : Type} (m : result A) (f : A -> result B) (b : B) :
  m ≫= f = Ok b -> exists a, m = Ok a /\ f a = Ok b.
Proof. destruct m as [a|e]; [exists a; split; [reflexivity|assumption] | discriminate]. Qed.

Lemma py_get_dict (d : list (string * pyval)) (k : string) (default : pyval) :
  py_get (PDict d) k default =
  Ok (match dict_lookup k d with Some x => x | None => default end).
Proof. reflexivity. Qed.

(** *** The pattern filter *)

Lemma filter_enabled_patterns_filter (patterns : list pyval) :
  Forall (fun p => is_pattern p = true) patterns ->
  filter_enabled_patterns patterns = Ok (filter enabled patterns).
Proof.
  induction 1 as [|p ps Hp Hps IH]; [reflexivity|].
  destruct p as [| | | | | |d]; try discriminate Hp.
  cbn [filter_enabled_patterns]. rewrite py_get_dict, IH. cbn.
  destruct (dict_lookup "enabled" d) as [v|]; cbn; [|reflexivity].
  destruct (truthy v); reflexivity.
Qed.

Lemma filter_enabled_patterns_app (before after : list pyval) :
  filter_enabled_patterns (before ++ after)%list =
  kept ← filter_enabled_patterns before;
  rest ← filter_enabled_patterns after;
  Ok (kept ++ rest)%list.
Proof.
  induction before as [|p ps IH]; cbn.
  - destruct (filter_enabled_patterns after); reflexivity.
  - destruct (py_get p "enabled" (PBool false)) as [v|e]; cbn; [|reflexivity].
    rewrite IH. destruct (filter_enabled_patterns ps) as [kept|e]; cbn; [|reflexivity].
    destruct (filter_enabled_patterns after) as [rest|e]; cbn; [|reflexivity].
    destruct (truthy v); reflexivity.
Qed.

(** C6: on a sequence of pattern records, [filter_enabled_patterns] returns
    the subsequence of the patterns whose [enabled] attribute is truthy,
    each of them unchanged, and filtering a second time changes nothing. *)
Theorem filter_enabled_patterns_spec (patterns : list pyval) :
  Forall (fun p => is_pattern p = true) patterns ->
  exists kept,
    filter_enabled_patterns patterns = Ok kept /\
    kept = filter enabled patterns /\
    sublist kept patterns /\
    (forall p, p ∈ kept <-> p ∈ patterns /\ enabled p = true) /\
    filter_enabled_patterns kept = Ok kept.
Proof.
  intros Hdict. exists (filter enabled patterns).
  split; [apply filter_enabled_patterns_filter, Hdict|].
  split; [reflexivity|].
  split; [apply sublist_filter|].
  split.
  - intros p. rewrite list_elem_of_filter. rewrite Is_true_true. tauto.
  - rewrite filter_enabled_patterns_filter.
    + f_equal. apply list_filter_filter_l. auto.
    + rewrite Forall_forall in Hdict |- *. intros p Hp.
      apply list_elem_of_filter in Hp. apply Hdict, Hp.
Qed.

(** C8: a pattern record without an [enabled] field is dropped, wherever it
    stands in the sequence, and raises nothing: the result, value or
    exception, is that of the sequence without the record. *)
Theorem filter_enabled_patterns_absent (before after : list pyval)
    (d : list (string * pyval)) :
  dict_lookup "enabled" d = None ->
  filter_enabled_patterns (before ++ PDict d :: after)%list =
  filter_enabled_patterns (before ++ after)%list.
Proof.
  intros Habsent. rewrite !filter_enabled_patterns_app.
  destruct (filter_enabled_patterns before) as [kept|e]; cbn; [|reflexivity].
  rewrite Habsent. cbn. destruct (filter_enabled_patterns after); reflexivity.
Qed.

(** *** The rule identifier *)

Lemma str_contains_char (c : ascii) (s : string) :
  str_contains (String c "") s =
  match s with
  | "" => false
  | String a s' => Ascii.eqb a c || str_contains (String c "") s'
  end.
Proof.
  destruct s as [|a s']; [reflexivity|]. cbn.
  destruct (ascii_dec c a) as [->|Hne].
  - rewrite Ascii.eqb_refl. destruct s'; reflexivity.
  - destruct (Ascii.eqb_spec a c) as [->|_]; [contradiction|reflexivity].
Qed.

Lemma str_split_without (c : ascii) (s : string) :
  str_contains (String c "") s = false -> str_split c s = [s].
Proof.
  induction s as [|a s' IH]; [reflexivity|].
  rewrite str_contains_char. intros [Hac Hs']%orb_false_elim.
  cbn. rewrite Hac, (IH Hs'). reflexivity.
Qed.

Lemma str_split_with (c : ascii) (s : string) :
  str_contains (String c "") s = true ->
  exists p q qs, str_split c s = p :: q :: qs.
Proof.
  induction s as [|a s' IH]; [discriminate|].
  rewrite str_contains_char. cbn [str_split].
  destruct (Ascii.eqb a c); cbn [orb].
  - intros _. destruct (str_contains (String c "") s') eqn:Hs'.
    + destruct (IH eq_refl) as (p & q & qs & ->). eauto.
    + rewrite (str_split_without _ _ Hs'). eauto.
  - intros Hs'. destruct (IH Hs') as (p & q & qs & ->). eauto.
Qed.

Lemma last_str_split (c : ascii) (s : string) :
  str_contains (String c "") s = true ->
  List.last (str_split c s) "" = after_last c s.
Proof.
  induction s as [|a s' IH]; [discriminate|].
  rewrite str_contains_char. cbn [str_split after_last].
  destruct (str_contains (String c "") s') eqn:Hs'.
  - intros _. destruct (str_split_with _ _ Hs') as (p & q & qs & Hsplit).
    specialize (IH eq_refl). rewrite Hsplit in IH |- *.
    destruct (Ascii.eqb a c); exact IH.
  - rewrite orb_false_r. intros ->.
    rewrite (str_split_without _ _ Hs'). reflexivity.
Qed.

Lemma after_last_spec (c : ascii) (s : string) :
  str_contains (String c "") s = true ->
  exists before,
    s = before ++ String c (after_last c s) /\
    str_contains (String c "") (after_last c s) = false.
Proof.
  induction s as [|a s' IH]; [discriminate|].
  rewrite str_contains_char. cbn [after_last].
  destruct (str_contains (String c "") s') eqn:Hs'.
  - intros _. destruct (IH eq_refl) as (before & Heq & Hnone).
    exists (String a before). split; [|exact Hnone].
    change (String a s' = String a (before ++ String c (after_last c s'))).
    f_equal. exact Heq.
  - rewrite orb_false_r. intros Hac. rewrite Hac.
    apply Ascii.eqb_eq in Hac as ->. exists "". split; [reflexivity | exact Hs'].
Qed.

Lemma unique_parts_of_acc (parts acc : list string) :
  fold_left
    (fun unique_parts part =>
       if bool_decide (part ∈ unique_parts) then unique_parts
       else (unique_parts ++ [part])%list)
    parts acc =
  (acc ++ filter (fun q => q ∉ acc) (first_occurrences parts))%list.
Proof.
  revert acc. induction parts as [|p ps IH]; intros acc; cbn [fold_left first_occurrences].
  - rewrite filter_nil, app_nil_r. reflexivity.
  - rewrite IH, filter_cons, list_filter_filter. case_bool_decide as Hin.
    + rewrite decide_False by auto. f_equal. apply list_filter_iff.
      intros q. split; [|tauto]. intros Hq. split; [assumption|]. congruence.
    + rewrite decide_True by assumption. rewrite <- app_assoc. cbn. do 2 f_equal.
      apply list_filter_iff. intros q. rewrite elem_of_app, list_elem_of_singleton.
      tauto.
Qed.

Lemma filter_all {A : Type} (P : A -> Prop) `{!forall x, Decision (P x)}
    (l : list A) :
  (forall x, P x) -> filter P l = l.
Proof.
  intros HP. induction l as [|x l IH]; [reflexivity|].
  rewrite filter_cons, decide_True by apply HP. f_equal. exact IH.
Qed.

Lemma unique_parts_of_first_occurrences (parts : list string) :
  unique_parts_of parts = first_occurrences parts.
Proof.
  unfold unique_parts_of. rewrite unique_parts_of_acc. cbn.
  apply filter_all. intros q. apply not_elem_of_nil.
Qed.

Lemma truthy_PStr (s : string) :
  (if truthy (PStr s) then PStr s else PStr "unknown-rule") =
  PStr (if String.eqb s "" then "unknown-rule" else s).
Proof. cbn. destruct (String.eqb s ""); reflexivity. Qed.

Lemma format_rule_id_simplified (d : list (string * pyval)) (id : string) :
  dict_lookup "id" d = Some (PStr id) ->
  format_rule_id (PDict d) = Ok (PStr (simplified_rule_id id)).
Proof.
  intros Hid. unfold format_rule_id, simplified_rule_id.
  rewrite py_get_dict, Hid. cbn [mbind result_bind py_in py_split].
  destruct (str_contains "." id) eqn:Hdot; cbn [mbind result_bind py_in py_split].
  - rewrite (last_str_split "." id Hdot).
    destruct (str_contains "-" (after_last "." id));
      cbn [mbind result_bind py_in py_split];
      rewrite ?unique_parts_of_first_occurrences; apply f_equal, truthy_PStr.
  - destruct (str_contains "-" id);
      cbn [mbind result_bind py_in py_split];
      rewrite ?unique_parts_of_first_occurrences; apply f_equal, truthy_PStr.
Qed.

(** C2: for an identifier string [id], [format_rule_id] keeps what follows
    the last ['.'] when there is one, then, when a ['-'] is left, splits on
    ['-'], keeps the first occurrence of each part and joins them with ['-'],
    and returns ["unknown-rule"] when the outcome is empty; the three
    identifiers of the specification give ["audit"], ["no-unused-vars"] and
    ["unknown-rule"]. *)
Theorem format_rule_id_spec (d : list (string * pyval)) (id : string) :
  dict_lookup "id" d = Some (PStr id) ->
  format_rule_id (PDict d) = Ok (PStr (simplified_rule_id id)) /\
  (str_contains "." id = true ->
   exists before,
     id = before ++ "." ++ after_last "." id /\
     str_contains "." (after_last "." id) = false) /\
  format_rule_id (PDict [("id", PStr "python.security.audit.audit")])
    = Ok (PStr "audit") /\
  format_rule_id (PDict [("id", PStr "eslint.no-unused-vars-no-unused-vars")])
    = Ok (PStr "no-unused-vars") /\
  format_rule_id (PDict [("id", PStr "")]) = Ok (PStr "unknown-rule").
Proof.
  intros Hid. split; [apply format_rule_id_simplified, Hid|].
  split; [exact (after_last_spec "." id)|].
  repeat split; vm_compute; reflexivity.
Qed.

End Properties.

(** ** Running a computation *)

Lemma io_bind_run {A B : Type} (m : IO A) (f : A -> IO B) (w : World) :
  (m ≫= f) w =
  match m w with
  | Some (Ok a, w') => f a w'
  | Some (Raise e, w') => Some (Raise e, w')
  | None => None
  end.
Proof. reflexivity. Qed.

Ltac io_simpl :=
  cbn [mret io_ret print lift io_raise http_get_json input
       service requests stdin stdout stderr writable files
       with_request with_requests with_stdin with_stdout with_traceback
       with_file].

Ltac io_run := repeat first [rewrite io_bind_run | progress io_simpl].

Lemma with_stdout_nil (w : World) : with_stdout (stdout w ++ []) w = w.
Proof. destruct w. unfold with_stdout. cbn. rewrite app_nil_r. reflexivity. Qed.

Lemma io_for_print {A : Type} (f : A -> string) (xs : list A) :
  forall w : World,
    io_for xs (fun x => print (f x)) w
    = Some (Ok tt, with_stdout (stdout w ++ (f <$> xs)) w).
Proof.
  induction xs as [|x xs IH]; intros w.
  - cbn. rewrite with_stdout_nil. reflexivity.
  - cbn [io_for]. rewrite io_bind_run. cbn -[io_for]. rewrite IH.
    cbn. rewrite <- app_assoc. reflexivity.
Qed.

Lemma result_map_Ok {A B : Type} (f : A -> result B) (P : B -> Prop)
    (l : list A) :
  (forall x, x ∈ l -> exists y, f x = Ok y /\ P y) ->
  exists ys, result_map f l = Ok ys /\ Forall P ys /\ length ys = length l.
Proof.
  induction l as [|x l IH]; intros Hl.
  - exists []. repeat split; constructor.
  - destruct (Hl x) as (y & Hy & HP); [left|].
    destruct IH as (ys & Hys & HPs & Hlen); [intros x' Hx'; apply Hl; right; exact Hx'|].
    exists (y :: ys). cbn. rewrite Hy. cbn. rewrite Hys. cbn.
    repeat split; [constructor; assumption | rewrite Hlen; reflexivity].
Qed.

Lemma result_map_Raise {A B : Type} (f : A -> result B) (l : list A) (e : exn) :
  result_map f l = Raise e -> exists x, x ∈ l /\ f x = Raise e.
Proof.
  induction l as [|x l IH]; [discriminate|]. cbn.
  destruct (f x) as [y|e'] eqn:Hx; cbn.
  - destruct (result_map f l) as [ys|e'']; cbn; [discriminate|].
    intros [= ->]. destruct IH as (x' & Hin & Hx'); [reflexivity|].
    exists x'. split; [right; exact Hin | exact Hx'].
  - intros [= ->]. exists x. split; [left | exact Hx].
Qed.

Lemma result_map_length {A B : Type} (f : A -> result B) (l : list A)
    (ys : list B) :
  result_map f l = Ok ys -> length ys = length l.
Proof.
  revert ys. induction l as [|x l IH]; intros ys; cbn.
  - intros [= <-]. reflexivity.
  - destruct (f x) as [y|e]; cbn; [|discriminate].
    destruct (result_map f l) as [ys'|e]; cbn; [|discriminate].
    intros [= <-]. cbn. rewrite (IH ys' eq_refl). reflexivity.
Qed.


(** ** The interactive layer *)

Section Provider.

Variable py : interpreter.

Lemma select_provider_loop_spec (lines : list string) :
  forall (w : World) (tries : nat),
    stdin w = lines -> length lines < tries ->
    exists r w' skipped,
      select_provider_loop py tries w = Some (r, w') /\
      requests w' = requests w /\ files w' = files w /\
      Forall (fun line => str_lower py line ∉ VALID_PROVIDERS.*1) skipped /\
      stdout w' =
        (stdout w ++
         concat ((fun _ => [provider_prompt; "Invalid provider. Please try again."])
                   <$> skipped) ++
         [provider_prompt])%list /\
      ((exists line,
          r = Ok (str_lower py line) /\
          str_lower py line ∈ VALID_PROVIDERS.*1 /\
          lines = (skipped ++ line :: stdin w')%list) \/
       (r = Raise EOFError /\ lines = skipped /\ stdin w' = [])).
Proof.
  induction lines as [|line rest IH]; intros w tries Hlines Htries;
    (destruct tries as [|tries']; [cbn in Htries; lia|]);
    cbn [select_provider_loop]; rewrite io_bind_run; unfold input; cbn;
    rewrite Hlines.
  - eexists _, _, []. split; [reflexivity|]. cbn. do 2 (split; [reflexivity|]).
    split; [constructor|]. split; [reflexivity|]. right. auto.
  - case_bool_decide as Hvalid.
    + eexists _, _, []. split; [reflexivity|]. cbn. do 2 (split; [reflexivity|]).
      split; [constructor|]. split; [reflexivity|]. left. exists line. auto.
    + rewrite io_bind_run. cbn.
      match goal with
      | |- context [select_provider_loop py tries' ?w1] =>
          destruct (IH w1 tries' eq_refl) as
            (r & w' & skipped & Hrun & Hreq & Hfiles & Hskipped & Hout & Hend);
          [cbn in Htries; lia|]
      end.
      exists r, w', (line :: skipped). split; [exact Hrun|].
      split; [exact Hreq|]. split; [exact Hfiles|].
      split; [constructor; assumption|].
      split; [rewrite Hout; cbn; rewrite <- !app_assoc; reflexivity|].
      destruct Hend as [(line' & -> & Hin & ->)|(-> & -> & Hnil)].
      * left. exists line'. auto.
      * right. auto.
Qed.

(** X1: [select_provider] returns the lower-cased first line of the input that
    is a provider code, after an error message for each line before it, and
    raises [EOFError] when the input holds no such line; it asks nothing of
    the service and writes no file. *)
Theorem select_provider_spec (w : World) :
  exists r w' skipped,
    select_provider py w = Some (r, w') /\
    requests w' = requests w /\ files w' = files w /\
    Forall (fun line => str_lower py line ∉ VALID_PROVIDERS.*1) skipped /\
    stdout w' =
      (stdout w ++
       [(LF ++ "Available providers:")%string; "  gh: GitHub"; "  ghe: GitHub Enterprise";
        "  bb: Bitbucket"; "  gl: GitLab"] ++
       concat ((fun _ => [provider_prompt; "Invalid provider. Please try again."])
                 <$> skipped) ++
       [provider_prompt])%list /\
    ((exists line,
        r = Ok (str_lower py line) /\
        str_lower py line ∈ VALID_PROVIDERS.*1 /\
        stdin w = (skipped ++ line :: stdin w')%list) \/
     (r = Raise EOFError /\ stdin w = skipped /\ stdin w' = [])).
Proof.
  unfold select_provider. repeat (rewrite io_bind_run; cbn -[select_provider_loop]).
  match goal with
  | |- context [select_provider_loop py ?tries ?w1] =>
      destruct (select_provider_loop_spec (stdin w) w1 tries eq_refl) as
        (r & w' & skipped & Hrun & Hreq & Hfiles & Hskipped & Hout & Hend);
      [lia|]
  end.
  exists r, w', skipped. split; [exact Hrun|].
  split; [exact Hreq|]. split; [exact Hfiles|]. split; [exact Hskipped|].
  split; [|exact Hend].
  rewrite Hout. cbn. rewrite <- !app_assoc. reflexivity.
Qed.

End Provider.

Section CodingStandard.

Variable py : interpreter.

Lemma list_standards (standards : list pyval) :
  Forall (fun s => has_name s = true) standards ->
  forall (start : nat) (w : World),
    exists out,
      length out = length standards /\
      io_for (zip (Z.of_nat <$> seq start (length standards)) standards)
        (fun item =>
           name ← lift (py_getitem item.2 "name");
           print (py_str py (PInt item.1) ++ ". " ++ py_str py name)) w
      = Some (Ok tt, with_stdout (stdout w ++ out) w).
Proof.
  induction 1 as [|s rest Hs Hrest IH]; intros start w.
  - exists []. split; [reflexivity|]. cbn. rewrite with_stdout_nil. reflexivity.
  - destruct s as [| | | | | |d]; try discriminate Hs. cbn in Hs.
    destruct (dict_lookup "name" d) as [name|] eqn:Hname; [|discriminate].
    cbn [length seq fmap list_fmap zip zip_with io_for].
    rewrite io_bind_run. rewrite io_bind_run. cbn -[io_for]. rewrite Hname.
    cbn -[io_for].
    match goal with
    | |- context [io_for _ _ ?w1] => destruct (IH (S start) w1) as (out & Hlen & Hrun)
    end.
    eexists (_ :: out). split; [cbn; rewrite Hlen; reflexivity|].
    etransitivity; [exact Hrun|]. cbn. rewrite <- app_assoc. reflexivity.
Qed.

Lemma select_coding_standard_loop_spec (standards : list pyval)
    (lines : list string) :
  forall (w : World) (tries : nat),
    stdin w = lines -> length lines < tries ->
    exists r w' skipped,
      select_coding_standard_loop py (PList standards) tries w = Some (r, w') /\
      requests w' = requests w /\ files w' = files w /\
      Forall (fun line => ~ selects py (length standards) line) skipped /\
      stdout w' =
        (stdout w ++
         concat ((fun line => [standard_prompt; standard_retry py line])
                   <$> skipped) ++
         [standard_prompt])%list /\
      ((exists line selection standard,
          int_of_str py line = Some selection /\
          (1 ≤ selection ≤ Z.of_nat (length standards))%Z /\
          nth_error standards (Z.to_nat (selection - 1)) = Some standard /\
          r = Ok standard /\
          lines = (skipped ++ line :: stdin w')%list) \/
       (r = Raise EOFError /\ lines = skipped /\ stdin w' = [])).
Proof.
  induction lines as [|line rest IH]; intros w tries Hlines Htries;
    (destruct tries as [|tries']; [cbn in Htries; lia|]);
    cbn [select_coding_standard_loop]; rewrite io_bind_run; unfold input; cbn;
    rewrite Hlines.
  - eexists _, _, []. split; [reflexivity|]. cbn. do 2 (split; [reflexivity|]).
    split; [constructor|]. split; [reflexivity|]. right. auto.
  - assert (Hnext : forall retry, standard_retry py line = retry ->
              ~ selects py (length standards) line ->
              exists r w' skipped,
                select_coding_standard_loop py (PList standards) tries'
                  (with_stdout ((stdout w ++ [standard_prompt]) ++ [retry])
                     (with_stdin rest (with_stdout (stdout w ++ [standard_prompt]) w)))
                = Some (r, w') /\
                requests w' = requests w /\ files w' = files w /\
                Forall (fun line => ~ selects py (length standards) line) skipped /\
                stdout w' =
                  (stdout w ++
                   concat ((fun line => [standard_prompt; standard_retry py line])
                             <$> skipped) ++
                   [standard_prompt])%list /\
                ((exists line' selection standard,
                    int_of_str py line' = Some selection /\
                    (1 ≤ selection ≤ Z.of_nat (length standards))%Z /\
                    nth_error standards (Z.to_nat (selection - 1)) = Some standard /\
                    r = Ok standard /\
                    line :: rest = (skipped ++ line' :: stdin w')%list) \/
                 (r = Raise EOFError /\ line :: rest = skipped /\ stdin w' = []))).
    { intros retry Hretry Hnot.
      match goal with
      | |- context [select_coding_standard_loop py _ tries' ?w1] =>
          destruct (IH w1 tries' eq_refl) as
            (r & w' & skipped & Hrun & Hreq & Hfiles & Hskipped & Hout & Hend);
          [cbn in Htries; lia|]
      end.
      exists r, w', (line :: skipped). split; [exact Hrun|].
      split; [exact Hreq|]. split; [exact Hfiles|].
      split; [constructor; assumption|].
      split; [rewrite Hout, <- Hretry; cbn; rewrite <- !app_assoc; reflexivity|].
      destruct Hend as [(line' & sel & std & Hint & Hrange & Hnth & -> & ->)|(-> & -> & Hnil)].
      - left. exists line', sel, std. auto.
      - right. auto. }
    destruct (int_of_str py line) as [selection|] eqn:Hint.
    + rewrite io_bind_run. cbn.
      case_bool_decide as Hrange.
      * destruct (nth_error standards (Z.to_nat (selection - 1))) as [standard|] eqn:Hnth.
        -- eexists _, _, []. split; [reflexivity|]. cbn.
           do 2 (split; [reflexivity|]). split; [constructor|].
           split; [reflexivity|]. left. exists line, selection, standard. auto.
        -- apply nth_error_None in Hnth. lia.
      * rewrite io_bind_run. cbn. apply Hnext.
        -- unfold standard_retry. rewrite Hint. reflexivity.
        -- unfold selects. rewrite Hint. exact Hrange.
    + rewrite io_bind_run. cbn. apply Hnext.
      * unfold standard_retry. rewrite Hint. reflexivity.
      * unfold selects. rewrite Hint. tauto.
Qed.

(** X2: [select_coding_standard], on a list of records that have a name, returns
    the record at the position given by the first line of the input that is
    an integer from 1 to the length of the list, after one message for each
    line before it, and raises [EOFError] when the input holds no such line;
    it never indexes out of range, asks nothing of the service and writes no
    file. *)
Theorem select_coding_standard_spec (standards : list pyval) (w : World) :
  Forall (fun s => has_name s = true) standards ->
  exists r w' listing skipped,
    select_coding_standard py (PList standards) w = Some (r, w') /\
    requests w' = requests w /\ files w' = files w /\
    length listing = length standards /\
    Forall (fun line => ~ selects py (length standards) line) skipped /\
    stdout w' =
      (stdout w ++ [(LF ++ "Available coding standards:")%string] ++ listing ++
       concat ((fun line => [standard_prompt; standard_retry py line])
                 <$> skipped) ++
       [standard_prompt])%list /\
    ((exists line selection standard,
        int_of_str py line = Some selection /\
        (1 ≤ selection ≤ Z.of_nat (length standards))%Z /\
        nth_error standards (Z.to_nat (selection - 1)) = Some standard /\
        r = Ok standard /\
        stdin w = (skipped ++ line :: stdin w')%list) \/
     (r = Raise EOFError /\ stdin w = skipped /\ stdin w' = [])).
Proof.
  intros Hnames. unfold select_coding_standard, enumerate1.
  rewrite io_bind_run. cbn -[select_coding_standard_loop io_for].
  rewrite io_bind_run. cbn -[select_coding_standard_loop io_for].
  rewrite io_bind_run.
  match goal with
  | |- context [io_for _ _ ?w1] =>
      destruct (list_standards standards Hnames 1 w1) as (listing & Hlen & Hrun)
  end.
  match goal with
  | |- context [match ?run with _ => _ end] =>
      replace run with (Some (Ok tt, with_stdout
        ((stdout w ++ [(LF ++ "Available coding standards:")%string]) ++ listing) w))
  end.
  rewrite io_bind_run. cbn -[select_coding_standard_loop].
  match goal with
  | |- context [select_coding_standard_loop py _ ?tries ?w1] =>
      destruct (select_coding_standard_loop_spec standards (stdin w) w1 tries eq_refl)
        as (r & w' & skipped & Hloop & Hreq & Hfiles & Hskipped & Hout & Hend);
      [lia|]
  end.
  exists r, w', listing, skipped. split; [exact Hloop|].
  split; [exact Hreq|]. split; [exact Hfiles|]. split; [exact Hlen|].
  split; [exact Hskipped|]. split; [|exact Hend].
  rewrite Hout. cbn. rewrite <- !app_assoc. reflexivity.
Qed.

Lemma select_coding_standard_first (standards : list pyval) (w : World)
    (line : string) (rest : list string) (selection : Z) (standard : pyval) :
  Forall (fun s => has_name s = true) standards ->
  stdin w = line :: rest ->
  int_of_str py line = Some selection ->
  (1 ≤ selection ≤ Z.of_nat (length standards))%Z ->
  nth_error standards (Z.to_nat (selection - 1)) = Some standard ->
  exists listing,
    length listing = length standards /\
    select_coding_standard py (PList standards) w =
    Some (Ok standard,
          with_stdin rest
            (with_stdout
               (stdout w ++ [(LF ++ "Available coding standards:")%string] ++
                listing ++ [standard_prompt]) w)).
Proof.
  intros Hnames Hstdin Hint Hrange Hnth.
  unfold select_coding_standard, enumerate1.
  rewrite io_bind_run. cbn -[select_coding_standard_loop io_for].
  rewrite io_bind_run. cbn -[select_coding_standard_loop io_for].
  rewrite io_bind_run.
  match goal with
  | |- context [io_for _ _ ?w1] =>
      destruct (list_standards standards Hnames 1 w1) as (listing & Hlen & Hrun)
  end.
  exists listing. split; [exact Hlen|].
  match goal with
  | |- context [match ?run with _ => _ end] =>
      replace run with (Some (Ok tt, with_stdout
        ((stdout w ++ [(LF ++ "Available coding standards:")%string]) ++ listing) w))
  end.
  rewrite io_bind_run. cbn -[select_coding_standard_loop].
  cbn [select_coding_standard_loop]. rewrite io_bind_run. unfold input. cbn.
  rewrite Hstdin, Hint. rewrite io_bind_run. cbn.
  rewrite bool_decide_eq_true_2 by exact Hrange. unfold lift. rewrite Hnth.
  unfold with_stdin, with_stdout. cbn. rewrite <- !app_assoc. reflexivity.
Qed.

End CodingStandard.

Section SelectedLanguages.

Variable py : interpreter.

Lemma filter_none (accepts : string -> bool) (l : list string) :
  Forall (fun x => accepts x = false) l ->
  filter (fun x => accepts x = true) l = [].
Proof.
  induction 1 as [|x l Hx Hl IH]; [reflexivity|].
  rewrite filter_cons, decide_False by congruence. exact IH.
Qed.

(** X3: [get_user_selected_languages] reads one line and returns only languages
    of the list it was given, at most one for each comma-separated part of
    the line: a number out of range is passed over, never indexed.  It
    raises nothing but [EOFError], when there is no line to read, and the
    [ValueError] of [int] on a part that [isdigit] accepted; a line with no
    such part selects nothing.  It asks nothing of the service and writes
    no file. *)
Theorem get_user_selected_languages_spec (available_languages : list string)
    (w : World) :
  exists r w',
    get_user_selected_languages py available_languages w = Some (r, w') /\
    requests w' = requests w /\ files w' = files w /\
    stdout w' =
      (stdout w ++ [(LF ++ "Available languages:")%string] ++
       ((fun item : Z * string =>
           (py_str py (PInt item.1) ++ ". " ++ str_capitalize py item.2)%string)
          <$> enumerate1 available_languages) ++
       [languages_prompt])%list /\
    match stdin w with
    | [] => r = Raise EOFError /\ stdin w' = []
    | line :: rest =>
        stdin w' = rest /\
        match r with
        | Ok selected =>
            Forall (fun lang => lang ∈ available_languages) selected /\
            length selected <= length (str_split "," line)
        | Raise e =>
            exists part,
              part ∈ str_split "," line /\
              str_isdigit py (str_strip py part) = true /\
              int_of_str py (str_strip py part) = None /\
              e = ValueError (str_strip py part)
        end /\
        (Forall (fun part => str_isdigit py (str_strip py part) = false)
                (str_split "," line) -> r = Ok [])
    end.
Proof.
  unfold get_user_selected_languages.
  rewrite io_bind_run. cbn -[io_for enumerate1 str_split].
  rewrite io_bind_run, io_for_print. cbn -[enumerate1 str_split].
  rewrite io_bind_run. unfold input. cbn -[enumerate1 str_split].
  destruct (stdin w) as [|line rest] eqn:Hstdin.
  - eexists _, _. split; [reflexivity|]. cbn -[enumerate1].
    do 2 (split; [reflexivity|]).
    split; [rewrite <- !app_assoc; reflexivity|]. split; [reflexivity|exact Hstdin].
  - rewrite io_bind_run. cbn -[enumerate1 str_split].
    remember (filter (fun idx => str_isdigit py (str_strip py idx) = true)
                (str_split "," line)) as parts eqn:Hparts.
    destruct (result_map
                (fun idx => match int_of_str py (str_strip py idx) with
                            | Some n => Ok n
                            | None => Raise (ValueError (str_strip py idx))
                            end) parts) as [indices|e] eqn:Hindices.
    + cbn -[enumerate1 str_split].
      destruct (result_map_Ok
                  (fun idx => match nth_error available_languages (Z.to_nat (idx - 1)) with
                              | Some lang => Ok lang
                              | None => Raise IndexError
                              end)
                  (fun lang => lang ∈ available_languages)
                  (filter (fun idx => (1 ≤ idx ≤ Z.of_nat (length available_languages))%Z)
                     indices)) as (selected & Hselected & Hin & Hlen).
      { intros idx [Hrange _]%list_elem_of_filter.
        destruct (nth_error available_languages (Z.to_nat (idx - 1))) as [lang|] eqn:Hnth.
        - exists lang. split; [reflexivity|].
          apply list_elem_of_In. eapply nth_error_In, Hnth.
        - apply nth_error_None in Hnth. lia. }
      eexists _, _. split; [unfold lift; rewrite Hselected; reflexivity|].
      cbn -[enumerate1 str_split]. do 2 (split; [reflexivity|]).
      split; [rewrite <- !app_assoc; reflexivity|]. split; [reflexivity|].
      split; [split; [exact Hin|]|].
      * rewrite Hlen. etransitivity; [apply length_filter|].
        rewrite (result_map_length _ _ _ Hindices), Hparts. apply length_filter.
      * intros Hnone. rewrite (filter_none _ _ Hnone) in Hparts. subst parts.
        injection Hindices as <-. injection Hselected as <-. reflexivity.
    + destruct (result_map_Raise _ _ _ Hindices) as (part & Hpart & Hint).
      rewrite Hparts in Hpart. apply list_elem_of_filter in Hpart as [Hdigit Hpart].
      eexists _, _. split; [reflexivity|].
      cbn -[enumerate1 str_split]. do 2 (split; [reflexivity|]).
      split; [rewrite <- !app_assoc; reflexivity|]. split; [reflexivity|].
      split.
      * exists part. split; [exact Hpart|]. split; [exact Hdigit|].
        destruct (int_of_str py (str_strip py part)); [discriminate|].
        injection Hint as <-. split; reflexivity.
      * intros Hnone. rewrite (filter_none _ _ Hnone) in Hparts. subst parts.
        discriminate Hindices.
Qed.

End SelectedLanguages.

Section Tools.

Lemma find_tool_dict (d : list (string * pyval)) (rest : list pyval)
    (tool_uuid : string) :
  find_tool (PDict d :: rest) tool_uuid =
  if has_uuid tool_uuid (PDict d) then Ok (PDict d) else find_tool rest tool_uuid.
Proof.
  cbn. destruct (dict_lookup "uuid" d) as [[| | | |s| |]|]; reflexivity.
Qed.

Lemma has_uuid_truthy (tool_uuid : string) (tool : pyval) :
  has_uuid tool_uuid tool = true -> truthy tool = true.
Proof.
  destruct tool as [| | | | | |d]; try discriminate.
  destruct d; [discriminate|reflexivity].
Qed.

(** X4: [get_tool_by_uuid], on a list of tool records, returns the first record
    whose [uuid] is the string asked for, which is truthy, and [None]
    exactly when no record has it. *)
Theorem get_tool_by_uuid_spec (tools : list pyval) (tool_uuid : string) :
  Forall (fun t => is_dict t = true) tools ->
  (exists before tool after,
     tools = (before ++ tool :: after)%list /\
     Forall (fun t => has_uuid tool_uuid t = false) before /\
     has_uuid tool_uuid tool = true /\ truthy tool = true /\
     get_tool_by_uuid (PList tools) tool_uuid = Ok tool) \/
  (Forall (fun t => has_uuid tool_uuid t = false) tools /\
   get_tool_by_uuid (PList tools) tool_uuid = Ok PNone).
Proof.
  unfold get_tool_by_uuid. cbn [py_iter mbind result_bind].
  induction 1 as [|t rest Ht Hrest IH].
  - right. split; [constructor | reflexivity].
  - destruct t as [| | | | | |d]; try discriminate Ht.
    rewrite find_tool_dict. destruct (has_uuid tool_uuid (PDict d)) eqn:Huuid.
    + left. exists [], (PDict d), rest.
      repeat split; [constructor | exact Huuid | exact (has_uuid_truthy _ _ Huuid)].
    + destruct IH as [(before & tool & after & -> & Hbefore & Htool & Htruthy & Hfind)
                     |[Hnone Hfind]].
      * left. exists (PDict d :: before), tool, after.
        repeat split;
          [constructor; assumption | exact Htool | exact Htruthy | exact Hfind].
      * right. split; [constructor; assumption | exact Hfind].
Qed.

Lemma find_tool_none (tools : list pyval) (tool_uuid : string) :
  Forall (fun t => is_dict t = true) tools ->
  Forall (fun t => has_uuid tool_uuid t = false) tools ->
  find_tool tools tool_uuid = Ok PNone.
Proof.
  induction 1 as [|t rest Ht Hrest IH]; intros Hnone; [reflexivity|].
  apply Forall_cons in Hnone as [Hnot Hnone].
  destruct t as [| | | | | |d]; try discriminate Ht.
  rewrite find_tool_dict, Hnot. apply IH, Hnone.
Qed.

End Tools.

(** ** The pagination walker *)

Section Pagination.

Variable py : interpreter.

Lemma page_of_reads (body : pyval) (data : list pyval) (cursor : pyval) :
  page_of body = Some (data, cursor) ->
  (py_getitem body "data" ≫= py_iter) = Ok data /\
  (pagination ← py_get body "pagination" (PDict []);
   py_get pagination "cursor" PNone) = Ok cursor.
Proof.
  destruct body as [| | | | | |d]; try discriminate. cbn.
  destruct (dict_lookup "data" d) as [[| | | | |l|]|]; try discriminate.
  destruct (dict_lookup "pagination" d) as [[| | | | | |p]|]; try discriminate; cbn.
  - intros [= <- <-]. split; reflexivity.
  - intros [= <- <-]. split; reflexivity.
Qed.

(** One turn of the loop on a page: the items are appended, and the loop
    goes on with the page's cursor when it is truthy, and ends otherwise. *)
Lemma fetch_pages_page (fuel : nat) (url : string) (patterns : list pyval)
    (cursor : pyval) (w : World) (body : pyval) (data : list pyval)
    (next : pyval) :
  service w (requests w) (page_url py url cursor) = Ok body ->
  page_of body = Some (data, next) ->
  fetch_pages py (S fuel) url patterns cursor w =
  if truthy next
  then fetch_pages py fuel url (patterns ++ data)%list next
         (with_request (page_url py url cursor) w)
  else Some (Ok (patterns ++ data)%list, with_request (page_url py url cursor) w).
Proof.
  intros Hbody [Hdata Hcursor]%page_of_reads.
  cbn [fetch_pages]. rewrite io_bind_run. unfold http_get_json. rewrite Hbody.
  rewrite io_bind_run. unfold lift at 1. rewrite Hdata.
  rewrite io_bind_run. unfold lift at 1.
  destruct (py_get body "pagination" (PDict [])) as [pagination|e]; [|discriminate].
  cbn in Hcursor. rewrite io_bind_run. unfold lift at 1. rewrite Hcursor.
  destruct (truthy next); reflexivity.
Qed.

Lemma page_url_truthy (url : string) (cursor : pyval) :
  truthy cursor = true -> page_url py url cursor = next_page_url py url cursor.
Proof. intros H. unfold page_url. rewrite H. reflexivity. Qed.

Lemma with_requests_request (url : string) (urls : list string) (w : World) :
  with_requests urls (with_request url w) = with_requests (url :: urls) w.
Proof. unfold with_requests, with_request. cbn. rewrite <- app_assoc. reflexivity. Qed.

Lemma fetch_pages_serves (url : string) (final : list pyval * pyval)
    (pages : list (list pyval * pyval)) :
  forall (fuel : nat) (patterns : list pyval) (cursor : pyval) (w : World),
    Forall (fun page => truthy page.2 = true) pages ->
    truthy final.2 = false ->
    serves py (service w) (requests w) url (page_url py url cursor)
      (pages ++ [final]) ->
    length pages < fuel ->
    fetch_pages py fuel url patterns cursor w =
    Some (Ok (patterns ++ concat (pages ++ [final]).*1)%list,
          with_requests
            (page_requests py url (page_url py url cursor) (pages ++ [final])) w).
Proof.
  induction pages as [|[data next] rest IH];
    intros fuel patterns cursor w Htruthy Hfinal Hserves Hfuel;
    (destruct fuel as [|fuel']; [cbn in Hfuel; lia|]);
    cbn [app serves] in Hserves;
    destruct Hserves as [(body & Hbody & Hpage) Hrest].
  - destruct final as [data next]. cbn in Hfinal.
    rewrite (fetch_pages_page _ _ _ _ _ _ _ _ Hbody Hpage), Hfinal.
    cbn. rewrite app_nil_r. reflexivity.
  - apply Forall_cons in Htruthy as [Hnext Htruthy]. cbn in Hnext.
    rewrite (fetch_pages_page _ _ _ _ _ _ _ _ Hbody Hpage), Hnext.
    rewrite (IH fuel' _ next); [|exact Htruthy|exact Hfinal| |cbn in Hfuel; lia].
    + cbn [app fmap list_fmap concat page_requests fst snd].
      rewrite with_requests_request, <- app_assoc.
      rewrite (page_url_truthy _ _ Hnext). reflexivity.
    + rewrite (page_url_truthy _ _ Hnext). exact Hrest.
Qed.

Lemma page_requests_last (url : string) (pages : list (list pyval * pyval)) :
  forall (request : string) (final : list pyval * pyval),
    page_requests py url request (pages ++ [final]) =
    request :: ((fun page => next_page_url py url page.2) <$> pages).
Proof.
  induction pages as [|page rest IH]; intros request final; cbn.
  - reflexivity.
  - rewrite IH. reflexivity.
Qed.


Lemma fetch_pages_forever (url : string)
    (service0 : list string -> string -> result pyval) :
  (forall history request,
     exists body data cursor,
       service0 history request = Ok body /\
       page_of body = Some (data, cursor) /\ truthy cursor = true) ->
  forall (fuel : nat) (patterns : list pyval) (cursor : pyval) (w : World),
    service w = service0 ->
    fetch_pages py fuel url patterns cursor w = None.
Proof.
  intros Halways. induction fuel as [|fuel IH]; intros patterns cursor w Hservice.
  - reflexivity.
  - destruct (Halways (requests w) (page_url py url cursor))
      as (body & data & next & Hbody & Hpage & Hnext).
    rewrite <- Hservice in Hbody.
    rewrite (fetch_pages_page _ _ _ _ _ _ _ _ Hbody Hpage), Hnext.
    apply IH. exact Hservice.
Qed.

(** X6: Nothing bounds the pages [get_code_patterns_for_tool] fetches: against a
    service that answers every request with a page that carries a truthy
    cursor, the loop is still running after any number of pages. *)
Theorem get_code_patterns_for_tool_unbounded (fuel : nat)
    (organization provider coding_standard_id tool_uuid : string) (w : World) :
  (forall history request,
     exists body data cursor,
       service w history request = Ok body /\
       page_of body = Some (data, cursor) /\ truthy cursor = true) ->
  get_code_patterns_for_tool py fuel organization provider coding_standard_id
    tool_uuid w = None.
Proof.
  intros Halways. unfold get_code_patterns_for_tool.
  apply (fetch_pages_forever _ (service w) Halways). reflexivity.
Qed.

Lemma fetch_pages_raises (url : string) (e : exn)
    (pages : list (list pyval * pyval)) :
  forall (fuel : nat) (patterns : list pyval) (cursor : pyval) (w : World),
    Forall (fun page => truthy page.2 = true) pages ->
    serves py (service w) (requests w) url (page_url py url cursor) pages ->
    service w
      (requests w ++ page_requests py url (page_url py url cursor) pages)%list
      (page_url py url (cursor_after cursor pages)) = Raise e ->
    length pages < fuel ->
    fetch_pages py fuel url patterns cursor w =
    Some (Raise e,
          with_requests
            (page_requests py url (page_url py url cursor) pages ++
             [page_url py url (cursor_after cursor pages)]) w).
Proof.
  induction pages as [|[data next] rest IH];
    intros fuel patterns cursor w Htruthy Hserves Hraise Hfuel;
    (destruct fuel as [|fuel']; [cbn in Hfuel; lia|]).
  - cbn in Hraise. rewrite app_nil_r in Hraise.
    cbn [fetch_pages]. rewrite io_bind_run. unfold http_get_json. rewrite Hraise.
    reflexivity.
  - cbn [serves] in Hserves. destruct Hserves as [(body & Hbody & Hpage) Hrest].
    apply Forall_cons in Htruthy as [Hnext Htruthy]. cbn in Hnext.
    rewrite (fetch_pages_page _ _ _ _ _ _ _ _ Hbody Hpage), Hnext.
    cbn [fst snd] in Hrest. rewrite <- (page_url_truthy _ _ Hnext) in Hrest.
    cbn [page_requests cursor_after fold_left fst snd] in Hraise |- *.
    rewrite <- (page_url_truthy _ _ Hnext) in Hraise |- *.
    rewrite (IH fuel' _ next); [|exact Htruthy|exact Hrest| |cbn in Hfuel; lia].
    + rewrite with_requests_request. reflexivity.
    + cbn. rewrite <- app_assoc. exact Hraise.
Qed.

(** X7: A request that fails ends [get_code_patterns_for_tool] with the
    exception of the request: the items of the pages fetched before it are
    not returned, and no request follows it. *)
Theorem get_code_patterns_for_tool_failure (fuel : nat)
    (organization provider coding_standard_id tool_uuid : string)
    (pages : list (list pyval * pyval)) (e : exn) (w : World) :
  let url := patterns_url organization provider coding_standard_id tool_uuid in
  let failing := page_url py url (cursor_after PNone pages) in
  Forall (fun page => truthy page.2 = true) pages ->
  serves py (service w) (requests w) url url pages ->
  service w (requests w ++ page_requests py url url pages)%list failing
    = Raise e ->
  length pages < fuel ->
  get_code_patterns_for_tool py fuel organization provider coding_standard_id
    tool_uuid w =
  Some (Raise e,
        with_requests (page_requests py url url pages ++ [failing])%list w).
Proof.
  intros url failing Htruthy Hserves Hraise Hfuel.
  unfold get_code_patterns_for_tool. fold url.
  exact (fetch_pages_raises url e pages fuel [] PNone w Htruthy Hserves Hraise Hfuel).
Qed.

End Pagination.

(** ** The transformation layer *)

Section RuleIdentifier.

Lemma str_contains_app (c : ascii) (s1 s2 : string) :
  str_contains (String c "") (s1 ++ s2) =
  str_contains (String c "") s1 || str_contains (String c "") s2.
Proof.
  induction s1 as [|a s1 IH].
  - reflexivity.
  - change (String a s1 ++ s2) with (String a (s1 ++ s2)).
    rewrite !(str_contains_char c (String a _)), IH, orb_assoc. reflexivity.
Qed.

Lemma str_split_cons (c : ascii) (s : string) :
  exists p ps, str_split c s = p :: ps.
Proof.
  induction s as [|a s (p & ps & IH)]; cbn; [eauto|].
  destruct (Ascii.eqb a c); [eauto|]. rewrite IH. eauto.
Qed.

Lemma str_split_parts (c d : ascii) (s : string) :
  (str_contains (String d "") s = false \/ d = c) ->
  Forall (fun part => str_contains (String d "") part = false) (str_split c s).
Proof.
  induction s as [|a s IH]; intros Hd.
  - repeat constructor.
  - assert (Hs : str_contains (String d "") s = false \/ d = c).
    { destruct Hd as [Hd| ->]; [|right; reflexivity].
      rewrite str_contains_char in Hd. apply orb_false_elim in Hd as [_ Hd].
      left. exact Hd. }
    specialize (IH Hs). cbn [str_split].
    destruct (Ascii.eqb a c) eqn:Hac.
    + constructor; [reflexivity | exact IH].
    + destruct (str_split c s) as [|p ps]; [repeat constructor|].
      * rewrite str_contains_char, orb_false_r.
        destruct Hd as [Hd| ->]; [|exact Hac].
        rewrite str_contains_char in Hd. apply orb_false_elim in Hd as [Hd _]. exact Hd.
      * apply Forall_cons in IH as [Hp Hps]. constructor; [|exact Hps].
        rewrite str_contains_char, Hp, orb_false_r.
        destruct Hd as [Hd| ->]; [|exact Hac].
        rewrite str_contains_char in Hd. apply orb_false_elim in Hd as [Hd _]. exact Hd.
Qed.

Lemma str_split_app (c : ascii) (p rest : string) :
  str_contains (String c "") p = false ->
  str_split c (p ++ String c rest) = p :: str_split c rest.
Proof.
  induction p as [|a p IH]; intros Hp.
  - change ("" ++ String c rest) with (String c rest).
    cbn. rewrite Ascii.eqb_refl. reflexivity.
  - rewrite str_contains_char in Hp. apply orb_false_elim in Hp as [Hac Hp].
    change (String a p ++ String c rest) with (String a (p ++ String c rest)).
    cbn [str_split]. rewrite Hac, (IH Hp). reflexivity.
Qed.

(** Splitting what was joined gives the parts back. *)
Lemma str_split_join (c : ascii) (p : string) (ps : list string) :
  Forall (fun part => str_contains (String c "") part = false) (p :: ps) ->
  str_split c (str_join (String c "") (p :: ps)) = p :: ps.
Proof.
  revert p. induction ps as [|q ps IH]; intros p [Hp Hps]%Forall_cons.
  - apply str_split_without, Hp.
  - change (str_join (String c "") (p :: q :: ps))
      with (p ++ String c (str_join (String c "") (q :: ps))).
    rewrite (str_split_app _ _ _ Hp), (IH q Hps). reflexivity.
Qed.

Lemma str_join_parts (c d : ascii) (parts : list string) :
  d <> c ->
  Forall (fun part => str_contains (String d "") part = false) parts ->
  str_contains (String d "") (str_join (String c "") parts) = false.
Proof.
  intros Hdc. induction 1 as [|p ps Hp Hps IH]; [reflexivity|].
  destruct ps as [|q ps]; [exact Hp|].
  change (str_join (String c "") (p :: q :: ps))
    with (p ++ String c (str_join (String c "") (q :: ps))).
  rewrite str_contains_app, Hp, str_contains_char, IH, orb_false_r. cbn.
  destruct (Ascii.eqb_spec c d) as [->|_]; [contradiction|reflexivity].
Qed.

Lemma first_occurrences_elem (parts : list string) (q : string) :
  q ∈ first_occurrences parts <-> q ∈ parts.
Proof.
  induction parts as [|p ps IH]; [reflexivity|].
  cbn [first_occurrences]. rewrite !elem_of_cons, list_elem_of_filter, IH.
  destruct (decide (q = p)); tauto.
Qed.

Lemma first_occurrences_NoDup (parts : list string) :
  NoDup (first_occurrences parts).
Proof.
  induction parts as [|p ps IH]; [constructor|].
  cbn [first_occurrences]. constructor.
  - rewrite list_elem_of_filter. tauto.
  - apply NoDup_filter, IH.
Qed.

Lemma first_occurrences_fixed (parts : list string) :
  NoDup parts -> first_occurrences parts = parts.
Proof.
  induction 1 as [|p ps Hp Hps IH]; [reflexivity|].
  cbn [first_occurrences]. rewrite IH. f_equal.
  clear IH Hps. induction ps as [|q ps IH]; [reflexivity|].
  apply not_elem_of_cons in Hp as [Hpq Hp].
  rewrite filter_cons, decide_True by congruence. f_equal. apply IH, Hp.
Qed.

Lemma str_join_split (c : ascii) (s : string) :
  str_join (String c "") (str_split c s) = s.
Proof.
  induction s as [|a s IH]; [reflexivity|].
  cbn [str_split]. destruct (str_split_cons c s) as (p & ps & Hsplit).
  rewrite Hsplit in IH |- *. destruct (Ascii.eqb_spec a c) as [->|_].
  - change (str_join (String c "") ("" :: p :: ps))
      with ("" ++ String c (str_join (String c "") (p :: ps))).
    rewrite IH. reflexivity.
  - destruct ps as [|q ps].
    + cbn in IH |- *. rewrite IH. reflexivity.
    + change (str_join (String c "") (String a p :: q :: ps))
        with (String a (p ++ String c (str_join (String c "") (q :: ps)))).
      change (str_join (String c "") (p :: q :: ps))
        with (p ++ String c (str_join (String c "") (q :: ps))) in IH.
      rewrite IH. reflexivity.
Qed.

(** An identifier that is not empty, has no ['.'] and whose parts between
    ['-'] differ from one another is left as it is. *)
Lemma simplified_rule_id_fixed (r : string) :
  r <> "" ->
  str_contains "." r = false ->
  (str_contains "-" r = true -> NoDup (str_split "-" r)) ->
  simplified_rule_id r = r.
Proof.
  intros Hne Hdot Hparts. unfold simplified_rule_id. rewrite Hdot.
  assert (Hjoin : (if str_contains "-" r
                   then str_join "-" (first_occurrences (str_split "-" r))
                   else r) = r).
  { destruct (str_contains "-" r); [|reflexivity].
    rewrite (first_occurrences_fixed _ (Hparts eq_refl)). apply str_join_split. }
  rewrite Hjoin. destruct (String.eqb_spec r ""); [contradiction|reflexivity].
Qed.

Lemma simplified_rule_id_normal (id : string) :
  let r := simplified_rule_id id in
  r <> "" /\ str_contains "." r = false /\
  (str_contains "-" r = true -> NoDup (str_split "-" r)).
Proof.
  unfold simplified_rule_id.
  set (r0 := if str_contains "." id then after_last "." id else id).
  assert (Hdot0 : str_contains "." r0 = false).
  { subst r0. destruct (str_contains "." id) eqn:Hdot; [|exact Hdot].
    destruct (after_last_spec "." id Hdot) as (_ & _ & Hnone). exact Hnone. }
  set (r1 := if str_contains "-" r0
             then str_join "-" (first_occurrences (str_split "-" r0))
             else r0).
  assert (H1 : str_contains "." r1 = false /\
               (str_contains "-" r1 = true -> NoDup (str_split "-" r1))).
  { subst r1. destruct (str_contains "-" r0) eqn:Hhyphen.
    - destruct (str_split_cons "-" r0) as (p & ps & Hsplit).
      assert (Hno : forall d : ascii,
                 str_contains (String d "") r0 = false \/ d = "-"%char ->
                 Forall (fun part => str_contains (String d "") part = false)
                   (first_occurrences (str_split "-" r0))).
      { intros d Hd. apply Forall_forall. intros q Hq.
        apply (proj1 (first_occurrences_elem _ _)) in Hq.
        pose proof (str_split_parts "-" d r0 Hd) as Hall.
        rewrite Forall_forall in Hall. apply Hall, Hq. }
      split.
      + apply str_join_parts; [discriminate|]. apply Hno. left. exact Hdot0.
      + intros _. pose proof (Hno "-"%char (or_intror eq_refl)) as Hparts.
        rewrite Hsplit in Hparts |- *. cbn [first_occurrences] in Hparts |- *.
        rewrite (str_split_join "-" _ _ Hparts).
        apply (first_occurrences_NoDup (p :: ps)).
    - split; [exact Hdot0|]. rewrite Hhyphen. discriminate. }
  cbv zeta. destruct (String.eqb_spec r1 "") as [_|Hne].
  - split; [discriminate|]. split; [reflexivity|]. intros _.
    apply (bool_decide_unpack _). vm_compute. exact I.
  - split; [exact Hne | exact H1].
Qed.

(** X8: [format_rule_id] normalises: the identifier it returns for a string
    [id] is not empty and has no ['.'], and it is a fixed point, returned
    unchanged when it is itself given as [id]. *)
Theorem format_rule_id_idempotent (d : list (string * pyval)) (id : string) :
  dict_lookup "id" d = Some (PStr id) ->
  exists r,
    format_rule_id (PDict d) = Ok (PStr r) /\
    r <> "" /\
    str_contains "." r = false /\
    format_rule_id (PDict [("id", PStr r)]) = Ok (PStr r).
Proof.
  intros Hid. exists (simplified_rule_id id).
  destruct (simplified_rule_id_normal id) as (Hne & Hdot & Hparts).
  split; [apply format_rule_id_simplified, Hid|].
  split; [exact Hne|]. split; [exact Hdot|].
  rewrite (format_rule_id_simplified [("id", PStr (simplified_rule_id id))]
             (simplified_rule_id id) eq_refl).
  rewrite (simplified_rule_id_fixed _ Hne Hdot Hparts). reflexivity.
Qed.

End RuleIdentifier.

Section AvailableLanguages.

Variable py : interpreter.

#[local] Instance str_le_total : Total str_le.
Proof. intros s1 s2. apply String.leb_total. Qed.

#[local] Instance str_le_antisymm : AntiSymm eq str_le.
Proof. intros s1 s2. apply String.leb_antisym. Qed.

#[local] Instance str_le_trans : Transitive str_le.
Proof.
  intros a b c. unfold str_le, String.leb.
  destruct (String.compare a b) eqn:Hab; [| |discriminate]; intros _.
  - apply String.compare_eq_iff in Hab as ->. auto.
  - destruct (String.compare b c) eqn:Hbc; [| |discriminate]; intros _.
    + apply String.compare_eq_iff in Hbc as <-. rewrite Hab. reflexivity.
    + assert (H : String_as_OT.lt a c) by (etransitivity; [exact Hab|exact Hbc]).
      unfold String_as_OT.lt in H.
      change (String_as_OT.compare a c) with (String.compare a c) in H.
      rewrite H. reflexivity.
Qed.

Lemma result_map_lower (l : list pyval) (langs : list string) :
  as_strings l = Some langs ->
  result_map (py_lower py) l = Ok (str_lower py <$> langs).
Proof.
  revert langs. induction l as [|v l IH]; intros langs; cbn.
  - intros [= <-]. reflexivity.
  - destruct v as [| | | |s| |]; try discriminate.
    destruct (as_strings l) as [langs'|]; [|discriminate].
    intros [= <-]. cbn. rewrite (IH langs' eq_refl). reflexivity.
Qed.

Lemma lowered_languages_declared (d : list (string * pyval))
    (declared : list string) :
  declared_languages (PDict d) = Some declared ->
  exists pd,
    definition_of d = Some pd /\
    py_get (PDict d) "patternDefinition" (PDict []) = Ok (PDict pd) /\
    lowered_languages py (PDict pd) = Ok (list_to_set (str_lower py <$> declared)).
Proof.
  unfold declared_languages, definition_of. cbn [py_get].
  destruct (dict_lookup "patternDefinition" d) as [[| | | | | |pd]|];
    try discriminate.
  - intros Hdeclared. exists pd. do 2 (split; [reflexivity|]).
    unfold lowered_languages. cbn [py_get mbind result_bind].
    destruct (dict_lookup "languages" pd) as [[| | | | |l|]|]; try discriminate.
    + cbn. rewrite (result_map_lower _ _ Hdeclared). reflexivity.
    + injection Hdeclared as <-. reflexivity.
  - cbn. intros [= <-]. exists []. repeat split.
Qed.

Lemma collect_languages_declared (patterns : list pyval) :
  Forall (fun p => is_Some (declared_languages p)) patterns ->
  forall languages : gset string,
    exists found : gset string,
      collect_languages py patterns languages = Ok (languages ∪ found) /\
      forall l, l ∈ found <-> declares py patterns l.
Proof.
  induction 1 as [|p ps [declared Hp] Hps IH]; intros languages.
  - exists ∅. split; [cbn; rewrite union_empty_r_L; reflexivity|].
    intros l. split; [intros []%not_elem_of_empty|].
    intros (p & _ & _ & Hin & _). apply elem_of_nil in Hin as [].
  - destruct p as [| | | | | |d]; try discriminate Hp.
    destruct (lowered_languages_declared d declared Hp) as (pd & _ & Hget & Hlow).
    cbn [collect_languages]. rewrite Hget. cbn [mbind result_bind].
    rewrite Hlow. cbn [mbind result_bind].
    destruct (IH (languages ∪ list_to_set (str_lower py <$> declared)))
      as (found & -> & Hfound).
    exists (list_to_set (str_lower py <$> declared) ∪ found).
    split; [rewrite (assoc_L (∪)); reflexivity|].
    intros l. rewrite elem_of_union, elem_of_list_to_set, list_elem_of_fmap, Hfound.
    unfold declares. split.
    + intros [(lang & -> & Hlang)|(p & declared' & lang & Hin & Hdecl & Hlang & ->)].
      * exists (PDict d), declared, lang. repeat split; [left|assumption..].
      * exists p, declared', lang. repeat split; [right|..]; assumption.
    + intros (p & declared' & lang & Hin & Hdecl & Hlang & ->).
      apply elem_of_cons in Hin as [->|Hin].
      * left. exists lang. rewrite Hp in Hdecl. injection Hdecl as <-. auto.
      * right. exists p, declared', lang. auto.
Qed.

Lemma get_available_languages_declared (patterns : list pyval) :
  Forall (fun p => is_Some (declared_languages p)) patterns ->
  exists languages,
    get_available_languages py patterns = Ok languages /\
    (forall l, l ∈ languages <-> declares py patterns l) /\
    StronglySorted str_le languages /\
    NoDup languages.
Proof.
  intros Hwf. destruct (collect_languages_declared patterns Hwf ∅)
    as (found & Hcollect & Hfound).
  unfold get_available_languages. rewrite Hcollect. cbn [mbind result_bind].
  eexists. split; [reflexivity|]. unfold sorted. split; [|split].
  - intros l. rewrite merge_sort_Permutation, elem_of_elements, <- Hfound.
    rewrite union_empty_l_L. reflexivity.
  - apply StronglySorted_merge_sort; apply _.
  - rewrite merge_sort_Permutation. apply NoDup_elements.
Qed.

(** X9: [get_available_languages], on pattern records that declare their
    languages as a list of strings (or declare none), returns the
    lower-cased forms of all the languages declared, each once, in
    ascending order. *)
Theorem get_available_languages_spec (patterns : list pyval) :
  Forall (fun p => is_Some (declared_languages p)) patterns ->
  exists languages,
    get_available_languages py patterns = Ok languages /\
    (forall l, l ∈ languages <-> declares py patterns l) /\
    StronglySorted str_le languages /\
    NoDup languages.
Proof. exact (get_available_languages_declared patterns). Qed.

(** X10: The result of [get_available_languages] depends on the lower-cased
    languages declared and on nothing else: not on the order of the
    patterns or of their languages, on repetitions, or on the case a
    language is written in. *)
Theorem get_available_languages_set (patterns1 patterns2 : list pyval) :
  Forall (fun p => is_Some (declared_languages p)) patterns1 ->
  Forall (fun p => is_Some (declared_languages p)) patterns2 ->
  (forall l, declares py patterns1 l <-> declares py patterns2 l) ->
  get_available_languages py patterns1 = get_available_languages py patterns2.
Proof.
  intros Hwf1 Hwf2 Hsame.
  destruct (get_available_languages_declared patterns1 Hwf1)
    as (l1 & -> & Hin1 & Hsorted1 & Hnodup1).
  destruct (get_available_languages_declared patterns2 Hwf2)
    as (l2 & -> & Hin2 & Hsorted2 & Hnodup2).
  f_equal. apply (StronglySorted_unique str_le); [assumption..|].
  apply NoDup_Permutation; [assumption..|].
  intros l. rewrite Hin1, Hin2. apply Hsame.
Qed.

End AvailableLanguages.

Section Rules.

Variable py : interpreter.

Lemma format_rule_id_string (pd : list (string * pyval)) :
  match dict_lookup "id" pd with
  | None | Some (PStr _) => true
  | Some _ => false
  end = true ->
  exists r, format_rule_id (PDict pd) = Ok (PStr r).
Proof.
  destruct (dict_lookup "id" pd) as [[| | | |s| |]|] eqn:Hid; try discriminate;
    intros _.
  - eexists. apply (format_rule_id_simplified pd s Hid).
  - exists "unknown-rule". unfold format_rule_id. rewrite py_get_dict, Hid.
    reflexivity.
Qed.

Lemma qualifies_common (selected_languages declared : list string) :
  existsb (fun lang => bool_decide (str_lower py lang ∈ selected_languages))
    declared = false <->
  (list_to_set (str_lower py <$> declared) : gset string)
    ∩ list_to_set selected_languages = ∅.
Proof.
  rewrite <- not_true_iff_false, existsb_exists. split.
  - intros Hnone. apply set_eq. intros l.
    rewrite elem_of_intersection, !elem_of_list_to_set, list_elem_of_fmap.
    split; [|intros []%not_elem_of_empty].
    intros [(lang & -> & Hlang) Hsel]. destruct Hnone. exists lang.
    split; [apply list_elem_of_In, Hlang | apply bool_decide_eq_true, Hsel].
  - intros Hempty (lang & Hlang%list_elem_of_In & Hsel%bool_decide_eq_true).
    apply (not_elem_of_empty (C := gset string) (str_lower py lang)).
    rewrite <- Hempty, elem_of_intersection, !elem_of_list_to_set.
    split; [apply list_elem_of_fmap; eauto | exact Hsel].
Qed.

Lemma rule_of_pattern_well_formed (selected_languages : list string)
    (pattern : pyval) :
  well_formed pattern = true ->
  if qualifies py selected_languages pattern
  then exists rule,
         rule_of_pattern py selected_languages pattern = Ok (Some rule) /\
         rule_of py selected_languages pattern rule
  else rule_of_pattern py selected_languages pattern = Ok None.
Proof.
  destruct pattern as [| | | | | |d]; try discriminate.
  unfold well_formed, well_defined, qualifies.
  destruct (definition_of d) as [pd0|] eqn:Hdef; [|discriminate].
  destruct (declared_languages (PDict d)) as [declared|] eqn:Hdeclared;
    [|discriminate].
  intros [Hid Hseverity]%andb_true_iff.
  destruct (lowered_languages_declared py d declared Hdeclared)
    as (pd & Hdef' & Hget & Hlow).
  rewrite Hdef in Hdef'. injection Hdef' as ->.
  unfold rule_of_pattern. rewrite Hget. cbn [mbind result_bind].
  rewrite Hlow. cbn [mbind result_bind].
  pose proof (qualifies_common selected_languages declared) as Hcommon.
  destruct (existsb _ declared) eqn:Hqualifies.
  - rewrite bool_decide_eq_false_2
      by (intros Hempty%Hcommon; discriminate Hempty).
    destruct (format_rule_id_string pd Hid) as (r & Hr). rewrite Hr.
    cbn [mbind result_bind]. rewrite py_get_dict. cbn [mbind result_bind].
    rewrite py_get_dict. cbn [mbind result_bind py_in].
    set (common := (list_to_set (str_lower py <$> declared) : gset string)
                     ∩ list_to_set selected_languages).
    assert (Hrule : forall rule,
              rule = PDict ([("id", PStr r);
                             ("languages", PList (PStr <$> elements common))]
                            ++ message_field pd ++ severity_field py d
                            ++ pattern_field pd) ->
              rule_of py selected_languages (PDict d) rule).
    { intros rule ->. exists d, pd, declared, (PStr r), (elements common).
      split; [reflexivity|]. do 3 (split; [assumption|]).
      split; [apply NoDup_elements|].
      split; [|split; [|reflexivity]].
      - intros Hnil. apply elements_empty_inv in Hnil.
        apply leibniz_equiv in Hnil. apply Hcommon in Hnil. discriminate Hnil.
      - intros l. rewrite elem_of_elements. unfold common.
        rewrite elem_of_intersection, !elem_of_list_to_set. reflexivity. }
    unfold message_field, severity_field, pattern_field in Hrule.
    destruct (dict_lookup "description" pd) as [message|];
      [destruct (truthy message)|];
      (destruct (dict_lookup "severity" d) as [[| | | |s| |]|];
       cbn in Hseverity |- *;
       try (rewrite (proj1 (negb_true_iff _) Hseverity));
       try discriminate Hseverity;
       try (destruct (String.eqb s ""); cbn);
       (destruct (dict_lookup "pattern" pd) as [p|]; cbn;
        (eexists; split; [reflexivity|]; apply Hrule; reflexivity))).
  - rewrite bool_decide_eq_true_2 by (apply Hcommon; reflexivity). reflexivity.
Qed.

Lemma collect_rules_acc (selected_languages : list string)
    (patterns : list pyval) :
  forall rules : list pyval,
    collect_rules py selected_languages patterns rules =
    produced ← collect_rules py selected_languages patterns [];
    Ok (rules ++ produced)%list.
Proof.
  induction patterns as [|p ps IH]; intros rules; cbn [collect_rules].
  - cbn. rewrite app_nil_r. reflexivity.
  - destruct (rule_of_pattern py selected_languages p) as [[rule|]|e];
      cbn [mbind result_bind]; [| apply IH | reflexivity].
    rewrite (IH (rules ++ [rule])%list), (IH ([] ++ [rule])%list).
    destruct (collect_rules py selected_languages ps []) as [produced|e];
      cbn; [|reflexivity].
    rewrite <- app_assoc. reflexivity.
Qed.

Lemma collect_rules_app (selected_languages : list string)
    (patterns1 patterns2 : list pyval) :
  forall rules : list pyval,
    collect_rules py selected_languages (patterns1 ++ patterns2) rules =
    rules1 ← collect_rules py selected_languages patterns1 rules;
    collect_rules py selected_languages patterns2 rules1.
Proof.
  induction patterns1 as [|p ps IH]; intros rules; cbn [app collect_rules].
  - reflexivity.
  - destruct (rule_of_pattern py selected_languages p) as [[rule|]|e];
      cbn [mbind result_bind]; [apply IH | apply IH | reflexivity].
Qed.

Lemma collect_rules_well_formed (patterns : list pyval)
    (selected_languages : list string) :
  Forall (fun p => well_formed p = true) patterns ->
  exists rules,
    collect_rules py selected_languages patterns [] = Ok rules /\
    Forall2 (rule_of py selected_languages)
      (filter (qualifies py selected_languages) patterns) rules.
Proof.
  induction 1 as [|p ps Hp Hps (rules & Hcollect & Hrules)].
  - exists []. split; [reflexivity|constructor].
  - cbn [collect_rules]. rewrite filter_cons.
    pose proof (rule_of_pattern_well_formed selected_languages p Hp) as Hrule.
    destruct (qualifies py selected_languages p).
    + destruct Hrule as (rule & -> & Hrule). cbn [mbind result_bind].
      rewrite collect_rules_acc, Hcollect. cbn.
      exists (rule :: rules). split; [reflexivity|].
      rewrite decide_True by exact I. constructor; assumption.
    + rewrite Hrule. cbn [mbind result_bind]. rewrite Hcollect.
      exists rules. split; [reflexivity|].
      rewrite decide_False by (intros []). exact Hrules.
Qed.

(** X11: [create_semgrep_config], on well-formed pattern records, returns an
    object with the one key [rules], which holds one rule for each pattern
    that declares a selected language, in the order of the patterns.  A
    rule has the keys [id], [languages], [message], [severity] and
    [pattern] in this order: its languages are, each once, the lower-cased
    languages of the pattern that are selected, and there is one at least;
    [message] is left out when the description is missing or falsy and
    [severity] when the severity is falsy; [pattern] is ["{}"] when the
    definition has no such key. *)
Theorem create_semgrep_config_rules (patterns : list pyval)
    (selected_languages : list string) :
  Forall (fun p => well_formed p = true) patterns ->
  exists rules,
    create_semgrep_config py patterns selected_languages
      = Ok (PDict [("rules", PList rules)]) /\
    Forall2 (rule_of py selected_languages)
      (filter (qualifies py selected_languages) patterns) rules.
Proof.
  intros Hwf. unfold create_semgrep_config.
  destruct (collect_rules_well_formed patterns selected_languages Hwf)
    as (rules & -> & Hrules).
  exists rules. split; [reflexivity | exact Hrules].
Qed.

(** X12: The configuration of two sequences of patterns put end to end holds
    the rules of the first followed by the rules of the second; when one of
    them raises, so does the whole, with the exception met first. *)
Theorem create_semgrep_config_app (patterns1 patterns2 : list pyval)
    (selected_languages : list string) :
  create_semgrep_config py (patterns1 ++ patterns2) selected_languages =
  config1 ← create_semgrep_config py patterns1 selected_languages;
  config2 ← create_semgrep_config py patterns2 selected_languages;
  rules1 ← py_getitem config1 "rules" ≫= py_iter;
  rules2 ← py_getitem config2 "rules" ≫= py_iter;
  Ok (PDict [("rules", PList (rules1 ++ rules2))]).
Proof.
  unfold create_semgrep_config. rewrite collect_rules_app.
  destruct (collect_rules py selected_languages patterns1 []) as [rules1|e];
    cbn [mbind result_bind]; [|reflexivity].
  rewrite collect_rules_acc.
  destruct (collect_rules py selected_languages patterns2 []) as [rules2|e];
    reflexivity.
Qed.

Lemma rule_of_pattern_severity (selected_languages : list string)
    (d : list (string * pyval)) (severity : pyval) :
  well_defined (PDict d) = true ->
  dict_lookup "severity" d = Some severity ->
  truthy severity = true ->
  (forall s, severity <> PStr s) ->
  rule_of_pattern py selected_languages (PDict d) =
  if qualifies py selected_languages (PDict d)
  then Raise (AttributeError severity "upper")
  else Ok None.
Proof.
  unfold well_defined, qualifies.
  destruct (definition_of d) as [pd0|] eqn:Hdef; [|discriminate].
  destruct (declared_languages (PDict d)) as [declared|] eqn:Hdeclared;
    [|discriminate].
  intros Hid Hseverity Htruthy Hstr.
  destruct (lowered_languages_declared py d declared Hdeclared)
    as (pd & Hdef' & Hget & Hlow).
  rewrite Hdef in Hdef'. injection Hdef' as ->.
  unfold rule_of_pattern. rewrite Hget. cbn [mbind result_bind].
  rewrite Hlow. cbn [mbind result_bind].
  pose proof (qualifies_common selected_languages declared) as Hcommon.
  destruct (existsb _ declared) eqn:Hqualifies.
  - rewrite bool_decide_eq_false_2
      by (intros Hempty%Hcommon; discriminate Hempty).
    destruct (format_rule_id_string pd Hid) as (r & Hr). rewrite Hr.
    cbn [mbind result_bind]. rewrite py_get_dict. cbn [mbind result_bind].
    rewrite py_get_dict, Hseverity, Htruthy.
    destruct severity as [| | | |s| |]; try reflexivity.
    destruct (Hstr s eq_refl).
  - rewrite bool_decide_eq_true_2 by (apply Hcommon; reflexivity). reflexivity.
Qed.

(** X13: A severity that is truthy and not a string makes
    [create_semgrep_config] raise [AttributeError] when the pattern declares
    a selected language: no configuration is returned, whatever the
    patterns before and after it.  On a pattern that declares no selected
    language the severity is not looked at. *)
Theorem create_semgrep_config_severity (before after : list pyval)
    (d : list (string * pyval)) (severity : pyval)
    (selected_languages : list string) :
  Forall (fun p => well_formed p = true) before ->
  well_defined (PDict d) = true ->
  dict_lookup "severity" d = Some severity ->
  truthy severity = true ->
  (forall s, severity <> PStr s) ->
  create_semgrep_config py (before ++ PDict d :: after) selected_languages =
  if qualifies py selected_languages (PDict d)
  then Raise (AttributeError severity "upper")
  else create_semgrep_config py (before ++ after) selected_languages.
Proof.
  intros Hbefore Hdefined Hseverity Htruthy Hstr.
  unfold create_semgrep_config. rewrite !collect_rules_app.
  destruct (collect_rules_well_formed before selected_languages Hbefore)
    as (rules & -> & _).
  cbn [mbind result_bind collect_rules].
  rewrite (rule_of_pattern_severity _ _ _ Hdefined Hseverity Htruthy Hstr).
  destruct (qualifies py selected_languages (PDict d)); reflexivity.
Qed.

Lemma well_formed_declared (pattern : pyval) :
  well_formed pattern = true -> is_Some (declared_languages pattern).
Proof.
  unfold well_formed, well_defined. destruct pattern as [| | | | | |d];
    try discriminate.
  destruct (definition_of d); [|discriminate].
  destruct (declared_languages (PDict d)); [eauto|discriminate].
Qed.

(** X14: The languages offered and the rules made agree: on well-formed pattern
    records [get_available_languages] and [create_semgrep_config] both
    return, and the configuration has no rule exactly when none of the
    selected languages is one of the available ones. *)
Theorem create_semgrep_config_available (patterns : list pyval)
    (selected_languages : list string) :
  Forall (fun p => well_formed p = true) patterns ->
  exists available rules,
    get_available_languages py patterns = Ok available /\
    create_semgrep_config py patterns selected_languages
      = Ok (PDict [("rules", PList rules)]) /\
    (rules = [] <-> forall l, l ∈ selected_languages -> l ∉ available).
Proof.
  intros Hwf.
  destruct (get_available_languages_declared py patterns)
    as (available & Havailable & Hin & _).
  { eapply Forall_impl; [exact Hwf|]. apply well_formed_declared. }
  destruct (collect_rules_well_formed patterns selected_languages Hwf)
    as (rules & Hcollect & Hrules).
  exists available, rules. split; [exact Havailable|].
  split; [unfold create_semgrep_config; rewrite Hcollect; reflexivity|].
  assert (Hnone : rules = [] <->
                  Forall (fun p => qualifies py selected_languages p = false) patterns).
  { split.
    - intros ->. apply Forall2_nil_inv_r in Hrules.
      apply Forall_forall. intros p Hp.
      destruct (qualifies py selected_languages p) eqn:Hq; [|reflexivity].
      assert (Hin' : p ∈ filter (qualifies py selected_languages) patterns)
        by (apply list_elem_of_filter; split; [rewrite Hq; exact I | exact Hp]).
      rewrite Hrules in Hin'. apply elem_of_nil in Hin' as [].
    - intros Hall.
      assert (Hfilter : filter (qualifies py selected_languages) patterns = []).
      { clear -Hall. induction Hall as [|p ps Hp Hps IH]; [reflexivity|].
        rewrite filter_cons, decide_False by (rewrite Hp; intros []). exact IH. }
      rewrite Hfilter in Hrules. apply Forall2_nil_inv_l in Hrules. exact Hrules. }
  rewrite Hnone, Forall_forall. split.
  - intros Hall l Hsel Havail. apply Hin in Havail
      as (p & declared & lang & Hp & Hdeclared & Hlang & ->).
    specialize (Hall p Hp). unfold qualifies in Hall. rewrite Hdeclared in Hall.
    apply not_true_iff_false in Hall. apply Hall, existsb_exists.
    exists lang. split; [apply list_elem_of_In, Hlang|].
    apply bool_decide_eq_true, Hsel.
  - intros Hall p Hp. unfold qualifies.
    destruct (declared_languages p) as [declared|] eqn:Hdeclared; [|reflexivity].
    apply not_true_iff_false. intros (lang & Hlang & Hsel)%existsb_exists.
    apply bool_decide_eq_true in Hsel. apply (Hall _ Hsel), Hin.
    exists p, declared, lang. repeat split; [assumption..|].
    apply list_elem_of_In, Hlang.
Qed.

End Rules.

Section Filter.

(** X15: A value that is not an object makes [filter_enabled_patterns] raise
    [AttributeError]: the records before it are not returned and the values
    after it are not looked at. *)
Theorem filter_enabled_patterns_error (before after : list pyval)
    (v : pyval) :
  Forall (fun p => is_pattern p = true) before ->
  is_pattern v = false ->
  filter_enabled_patterns (before ++ v :: after)%list
  = Raise (AttributeError v "get").
Proof.
  intros Hbefore Hv. rewrite filter_enabled_patterns_app.
  rewrite (filter_enabled_patterns_filter before Hbefore).
  cbn [mbind result_bind filter_enabled_patterns].
  destruct v; try discriminate Hv; reflexivity.
Qed.

End Filter.

(** ** What a run may change *)

Section Extends.

Variable py : interpreter.
Variable path : string.

Lemma prefix_app (s t : string) : String.prefix s (s ++ t) = true.
Proof.
  induction s as [|a s IH]; [destruct t; reflexivity|].
  change (String a s ++ t) with (String a (s ++ t)). cbn.
  destruct (ascii_dec a a) as [_|Hne]; [exact IH | destruct Hne; reflexivity].
Qed.

Lemma extends_refl (w : World) : extends 0 path w w.
Proof.
  repeat split; try (exists []; rewrite ?app_nil_r; repeat split; constructor).
Qed.

Lemma extends_trans (n m : nat) (w1 w2 w3 : World) :
  extends n path w1 w2 -> extends m path w2 w3 -> extends (n + m) path w1 w3.
Proof.
  intros (Hs1 & Hw1 & (a1 & Ha1 & Hapi1) & (r1 & Hr1) & (p1 & Hp1) & (t1 & Ht1)
          & (f1 & Hf1 & Hn1 & Hpath1))
         (Hs2 & Hw2 & (a2 & Ha2 & Hapi2) & (r2 & Hr2) & (p2 & Hp2) & (t2 & Ht2)
          & (f2 & Hf2 & Hn2 & Hpath2)).
  split; [congruence|]. split; [congruence|]. split; [|split; [|split; [|split]]].
  - exists (a1 ++ a2)%list. rewrite Ha2, Ha1, app_assoc.
    split; [reflexivity | apply Forall_app; split; assumption].
  - exists (r1 ++ r2)%list. rewrite Hr1, Hr2, app_assoc. reflexivity.
  - exists (p1 ++ p2)%list. rewrite Hp2, Hp1, app_assoc. reflexivity.
  - exists (t1 ++ t2)%list. rewrite Ht2, Ht1, app_assoc. reflexivity.
  - exists (f2 ++ f1)%list. rewrite Hf2, Hf1, app_assoc.
    split; [reflexivity|]. split; [rewrite length_app; lia|].
    apply Forall_app; split; assumption.
Qed.

Lemma extends_mono (n m : nat) (w w' : World) :
  n <= m -> extends n path w w' -> extends m path w w'.
Proof.
  intros Hnm (Hs & Hw & Ha & Hr & Hp & Ht & (written & Hf & Hn & Hpath)).
  repeat split; try assumption.
  exists written. repeat split; [assumption | lia | assumption].
Qed.

Lemma frame_bind {A B : Type} (n m : nat) (c : IO A) (f : A -> IO B) :
  io_frame n path c -> (forall a, io_frame m path (f a)) ->
  io_frame (n + m) path (c ≫= f).
Proof.
  intros Hc Hf w r w'. rewrite io_bind_run.
  destruct (c w) as [[[a|e] w1]|] eqn:Hrun; [| |discriminate].
  - intros Hrun'. eapply extends_trans; [eapply Hc, Hrun | eapply Hf, Hrun'].
  - intros [= <- <-]. apply (extends_mono n); [lia|]. eapply Hc, Hrun.
Qed.

Lemma frame_bind0 {A B : Type} (n : nat) (c : IO A) (f : A -> IO B) :
  io_frame 0 path c -> (forall a, io_frame n path (f a)) ->
  io_frame n path (c ≫= f).
Proof. apply (frame_bind 0 n). Qed.

Lemma frame_ret {A : Type} (a : A) : io_frame 0 path (mret a).
Proof. intros w r w' [= <- <-]. apply extends_refl. Qed.

Lemma frame_lift {A : Type} (r : result A) : io_frame 0 path (lift r).
Proof. intros w r' w' [= <- <-]. apply extends_refl. Qed.

Lemma frame_raise {A : Type} (e : exn) : io_frame 0 path (@io_raise A e).
Proof. apply frame_lift. Qed.

Lemma frame_print (line : string) : io_frame 0 path (print line).
Proof.
  intros w r w' [= <- <-].
  repeat split; try (exists []; rewrite ?app_nil_r; repeat split; constructor).
  exists [line]. reflexivity.
Qed.

Lemma frame_input (prompt : string) : io_frame 0 path (input prompt).
Proof.
  intros w r w'. unfold input. cbn.
  destruct (stdin w) as [|line rest] eqn:Hstdin; intros [= <- <-]; cbn;
    (split; [reflexivity|]); (split; [reflexivity|]);
    (split; [exists []; rewrite app_nil_r; split; [reflexivity|constructor]|]).
  - split; [exists []; cbn; rewrite Hstdin; reflexivity|].
    split; [exists [prompt]; reflexivity|].
    split; [exists []; rewrite app_nil_r; reflexivity|].
    exists []. repeat split; constructor.
  - split; [exists [line]; rewrite Hstdin; reflexivity|].
    split; [exists [prompt]; reflexivity|].
    split; [exists []; rewrite app_nil_r; reflexivity|].
    exists []. repeat split; constructor.
Qed.

Lemma frame_pending_lines : io_frame 0 path pending_lines.
Proof. intros w r w' [= <- <-]. apply extends_refl. Qed.

Lemma frame_http_get_json (url : string) :
  api_url url = true -> io_frame 0 path (http_get_json url).
Proof.
  intros Hurl w r w' [= <- <-].
  do 2 (split; [reflexivity|]).
  split; [exists [url]; split; [reflexivity|repeat constructor; exact Hurl]|].
  repeat split; try (exists []; rewrite ?app_nil_r; repeat split; constructor).
Qed.

Lemma frame_write_file (content : string) :
  io_frame 1 path (write_file path (config_header ++ content)).
Proof.
  intros w r w'. unfold write_file. destruct (writable w path); intros [= <- <-].
  - do 2 (split; [reflexivity|]).
    split; [exists []; rewrite app_nil_r; split; [reflexivity|constructor]|].
    split; [exists []; reflexivity|].
    split; [exists []; rewrite app_nil_r; reflexivity|].
    split; [exists []; rewrite app_nil_r; reflexivity|].
    exists [(path, config_header ++ content)].
    repeat split; [cbn; lia | repeat constructor; apply prefix_app].
  - apply (extends_mono 0); [lia | apply extends_refl].
Qed.

Lemma frame_io_for {A : Type} (xs : list A) (body : A -> IO unit) :
  (forall x, io_frame 0 path (body x)) -> io_frame 0 path (io_for xs body).
Proof.
  intros Hbody. induction xs as [|x xs IH]; cbn [io_for].
  - apply frame_ret.
  - apply frame_bind0; [apply Hbody | intros _; exact IH].
Qed.

Lemma api_url_organizations (rest : string) :
  api_url (CODACY_API_BASE_URL ++ "/organizations/" ++ rest) = true.
Proof. exact (prefix_app (CODACY_API_BASE_URL ++ "/organizations/") rest). Qed.

End Extends.

Ltac frame_step :=
  first
    [ apply frame_ret | apply frame_lift | apply frame_raise
    | apply frame_print | apply frame_input | apply frame_pending_lines
    | apply frame_http_get_json; apply api_url_organizations
    | apply frame_io_for; intros ?
    | match goal with
      | |- io_frame _ _ (mbind _ _) => apply frame_bind0; [|intros ?]
      end ].

Section Frames.

Variable py : interpreter.
Variable path : string.

Lemma frame_select_provider_loop (tries : nat) :
  io_frame 0 path (select_provider_loop py tries).
Proof.
  induction tries as [|tries IH]; cbn [select_provider_loop].
  - intros w r w' [=].
  - repeat frame_step. case_bool_decide; repeat frame_step. exact IH.
Qed.

Lemma frame_select_provider : io_frame 0 path (select_provider py).
Proof.
  unfold select_provider. repeat frame_step. apply frame_select_provider_loop.
Qed.

Lemma frame_get_coding_standards (organization provider : string) :
  io_frame 0 path (get_coding_standards organization provider).
Proof. unfold get_coding_standards. cbv zeta. repeat frame_step. Qed.

Lemma frame_select_coding_standard_loop (coding_standards : pyval)
    (tries : nat) :
  io_frame 0 path (select_coding_standard_loop py coding_standards tries).
Proof.
  induction tries as [|tries IH]; cbn [select_coding_standard_loop].
  - intros w r w' [=].
  - repeat frame_step. destruct (int_of_str py _); repeat frame_step; [|exact IH].
    case_bool_decide; repeat frame_step. exact IH.
Qed.

Lemma frame_select_coding_standard (coding_standards : pyval) :
  io_frame 0 path (select_coding_standard py coding_standards).
Proof.
  unfold select_coding_standard. repeat frame_step.
  apply frame_select_coding_standard_loop.
Qed.

Lemma frame_get_tools_for_coding_standard
    (organization provider coding_standard_id : string) :
  io_frame 0 path
    (get_tools_for_coding_standard organization provider coding_standard_id).
Proof. unfold get_tools_for_coding_standard. cbv zeta. repeat frame_step. Qed.

Lemma frame_fetch_pages (organization provider coding_standard_id
                         tool_uuid : string) (fuel : nat) :
  forall (patterns : list pyval) (cursor : pyval),
    io_frame 0 path
      (fetch_pages py fuel
         (patterns_url organization provider coding_standard_id tool_uuid)
         patterns cursor).
Proof.
  induction fuel as [|fuel IH]; intros patterns cursor; cbn [fetch_pages].
  - intros w r w' [=].
  - apply frame_bind0.
    + apply frame_http_get_json. unfold page_url.
      destruct (truthy cursor); exact (api_url_organizations _).
    + intros data. repeat frame_step. destruct (truthy _); [apply IH|frame_step].
Qed.

Lemma frame_get_user_selected_languages (available_languages : list string) :
  io_frame 0 path (get_user_selected_languages py available_languages).
Proof. unfold get_user_selected_languages. repeat frame_step. Qed.

Lemma frame_save_semgrep_config (config : pyval) :
  io_frame 1 path (save_semgrep_config py config path).
Proof. apply frame_write_file. Qed.

End Frames.

Section Main.

Variable py : interpreter.
Variable CODACY_API_TOKEN : option string.

Lemma io_frame_mono {A : Type} (n m : nat) (path : string) (c : IO A) :
  n <= m -> io_frame n path c -> io_frame m path c.
Proof. intros Hnm Hc w r w' Hrun. eapply extends_mono, Hc, Hrun. exact Hnm. Qed.

Lemma frame_main_try (fuel : nat) (args : arguments) :
  io_frame 1 (output args) (main_try py fuel args).
Proof.
  unfold main_try.
  apply frame_bind0;
    [destruct (given (provider args)); [frame_step|apply frame_select_provider]|].
  intros selected_provider. do 3 (apply frame_bind0; [repeat frame_step|intros ?]).
  { destruct (given (organization args)); frame_step. }
  apply frame_bind0; [frame_step|intros _].
  apply frame_bind0; [apply frame_get_coding_standards|intros coding_standards].
  apply frame_bind0; [destruct (truthy coding_standards); frame_step|intros _].
  apply frame_bind0; [apply frame_select_coding_standard|intros selected_standard].
  do 3 (apply frame_bind0; [frame_step|intros ?]).
  apply frame_bind0; [apply frame_get_tools_for_coding_standard|intros tools].
  do 3 (apply frame_bind0; [frame_step|intros ?]).
  destruct (negb (truthy _)).
  - apply (io_frame_mono 0); [lia|]. repeat frame_step.
  - do 4 (apply frame_bind0; [frame_step|intros ?]).
    apply frame_bind0; [apply frame_fetch_pages|intros tool_patterns].
    do 4 (apply frame_bind0; [frame_step|intros ?]).
    apply frame_bind0; [apply frame_get_user_selected_languages|intros ?].
    do 2 (apply frame_bind0; [frame_step|intros ?]).
    apply (frame_bind _ 1 0); [apply frame_save_semgrep_config|intros _].
    repeat frame_step.
Qed.

Lemma extends_main_except (path : string) (e : exn) (w : World) :
  extends 0 path w (main_except py e w).
Proof.
  unfold main_except. destruct (is_request_exception e); cbn;
    do 2 (split; [reflexivity|]);
    (split; [exists []; rewrite app_nil_r; split; [reflexivity|constructor]|]);
    (split; [exists []; reflexivity|]);
    (split; [eexists; reflexivity|]).
  - split; [exists []; rewrite app_nil_r; reflexivity|].
    exists []. repeat split; constructor.
  - split; [exists [e]; reflexivity|].
    exists []. repeat split; constructor.
Qed.

(** X16: A run of [main] that has ended asked only the Codacy API, wrote at most
    one file, at the path of [--output], and otherwise only read the input
    and printed.  With the token set it has returned, whatever was raised on
    the way; without the token it has raised [ValueError] before doing
    anything. *)
Theorem main_frame (fuel : nat) (args : arguments) (w w' : World)
    (how : ending) :
  main py CODACY_API_TOKEN fuel args w = Some (how, w') ->
  extends 1 (output args) w w' /\
  match given CODACY_API_TOKEN with
  | Some _ => how = Returned
  | None =>
      how = Uncaught (ValueError "CODACY_API_TOKEN environment variable is not set")
      /\ w' = w
  end.
Proof.
  unfold main. destruct (given CODACY_API_TOKEN) as [token|].
  - destruct (main_try py fuel args w) as [[[[]|e] w1]|] eqn:Hrun;
      intros [= <- <-]; (split; [|reflexivity]).
    + exact (frame_main_try fuel args _ _ _ Hrun).
    + apply (extends_trans _ 1 0 w w1);
        [exact (frame_main_try fuel args _ _ _ Hrun) | apply extends_main_except].
  - intros [= <- <-]. split; [|split; reflexivity].
    apply (extends_mono _ 0); [lia | apply extends_refl].
Qed.

End Main.

(** ** Runs that stop early *)

Section Scenarios.

Variable py : interpreter.
Variable CODACY_API_TOKEN : option string.

Lemma list_tools (tools : list pyval) :
  Forall (fun t => is_dict t = true) tools ->
  forall w : World,
    exists out,
      length out = 2 * length tools /\
      io_for tools
        (fun item =>
           name ← lift (py_get item "name" (PStr "Unknown"));
           print ("- Name: " ++ py_str py name);;
           uuid ← lift (py_get item "uuid" (PStr "Unknown UUID"));
           print ("  UUID: " ++ py_str py uuid)) w
      = Some (Ok tt, with_stdout (stdout w ++ out) w).
Proof.
  induction 1 as [|t rest Ht Hrest IH]; intros w.
  - exists []. split; [reflexivity|]. cbn. rewrite with_stdout_nil. reflexivity.
  - destruct t as [| | | | | |d]; try discriminate Ht.
    cbn [io_for]. rewrite io_bind_run.
    repeat (rewrite io_bind_run; cbn [lift py_get print mret io_ret]).
    match goal with
    | |- context [io_for rest _ ?w1] => destruct (IH w1) as (out & Hlen & Hrun)
    end.
    eexists (_ :: _ :: out). split; [cbn; rewrite Hlen; lia|].
    etransitivity; [exact Hrun|]. cbn. rewrite <- !app_assoc. reflexivity.
Qed.

Lemma provider_name_found (selected_provider provider_name : string) :
  (selected_provider, provider_name) ∈ VALID_PROVIDERS ->
  exists i,
    list_find (fun item : string * string => item.1 = selected_provider)
      VALID_PROVIDERS
    = Some (i, (selected_provider, provider_name)).
Proof.
  unfold VALID_PROVIDERS. intros Hvalid.
  repeat (apply elem_of_cons in Hvalid as [[= -> ->]|Hvalid];
          [eexists; reflexivity|]).
  apply elem_of_nil in Hvalid as [].
Qed.



End Scenarios.

(** ** From patterns to rules *)

Section Pipeline.

Variable py : interpreter.

Lemma well_formed_is_pattern (pattern : pyval) :
  well_formed pattern = true -> is_pattern pattern = true.
Proof. destruct pattern; try discriminate. reflexivity. Qed.

(** X19: Disabled patterns make no rule.  On well-formed pattern records,
    filtering the enabled ones and building the configuration from them
    both return, and the rules are those of the patterns that are enabled
    and declare a selected language, in the order of the patterns. *)
Theorem enabled_patterns_rules (patterns : list pyval)
    (selected_languages : list string) :
  Forall (fun p => well_formed p = true) patterns ->
  exists enabled_patterns rules,
    filter_enabled_patterns patterns = Ok enabled_patterns /\
    create_semgrep_config py enabled_patterns selected_languages
      = Ok (PDict [("rules", PList rules)]) /\
    Forall2 (rule_of py selected_languages)
      (filter (fun p => enabled p && qualifies py selected_languages p) patterns)
      rules.
Proof.
  intros Hwf. exists (filter enabled patterns).
  assert (Hkept : Forall (fun p => well_formed p = true) (filter enabled patterns)).
  { rewrite Forall_forall in Hwf |- *. intros p Hp.
    apply list_elem_of_filter in Hp. apply Hwf, Hp. }
  destruct (collect_rules_well_formed py _ selected_languages Hkept)
    as (rules & Hcollect & Hrules).
  exists rules. split; [|split].
  - apply filter_enabled_patterns_filter.
    eapply Forall_impl; [exact Hwf|]. apply well_formed_is_pattern.
  - unfold create_semgrep_config. rewrite Hcollect. reflexivity.
  - rewrite list_filter_filter in Hrules.
    erewrite list_filter_iff; [exact Hrules|].
    intros p. cbn. rewrite andb_True. tauto.
Qed.

End Pipeline.

(** ** A complete run *)

Section CompleteRun.

Variable py : interpreter.
Variable CODACY_API_TOKEN : option string.

Lemma get_user_selected_languages_run (available_languages : list string)
    (w : World) (line : string) (rest : list string) :
  stdin w = line :: rest ->
  get_user_selected_languages py available_languages w =
  Some (chosen_languages py available_languages line,
        with_stdin rest
          (with_stdout
             (stdout w ++ [(LF ++ "Available languages:")%string] ++
              ((fun item : Z * string =>
                  (py_str py (PInt item.1) ++ ". "
                   ++ str_capitalize py item.2)%string)
                 <$> enumerate1 available_languages) ++
              [languages_prompt]) w)).
Proof.
  intros Hstdin. unfold get_user_selected_languages, chosen_languages.
  rewrite io_bind_run. cbn -[io_for enumerate1 str_split].
  rewrite io_bind_run, io_for_print. cbn -[enumerate1 str_split].
  rewrite io_bind_run. unfold input. cbn -[enumerate1 str_split].
  rewrite Hstdin. rewrite io_bind_run. unfold lift.
  destruct (result_map _ (filter _ (str_split "," line))) as [indices|e];
    cbn -[enumerate1 str_split]; rewrite <- !app_assoc; reflexivity.
Qed.

Lemma create_semgrep_config_shape (patterns : list pyval)
    (selected_languages : list string) (config : pyval) :
  create_semgrep_config py patterns selected_languages = Ok config ->
  exists rules, config = PDict [("rules", PList rules)].
Proof.
  unfold create_semgrep_config.
  destruct (collect_rules py selected_languages patterns []) as [rules|e];
    [|discriminate].
  intros [= <-]. exists rules. reflexivity.
Qed.


End CompleteRun.

(** ** The theorems at concrete inputs *)

Lemma filter_enabled_patterns_spec_witness :
  exists kept,
    filter_enabled_patterns
      [PDict [("enabled", PBool true)]; PDict [("enabled", PBool false)]]
    = Ok kept /\
    kept = filter enabled
             [PDict [("enabled", PBool true)]; PDict [("enabled", PBool false)]] /\
    sublist kept
      [PDict [("enabled", PBool true)]; PDict [("enabled", PBool false)]] /\
    (forall p, p ∈ kept <->
       p ∈ [PDict [("enabled", PBool true)]; PDict [("enabled", PBool false)]]
       /\ enabled p = true) /\
    filter_enabled_patterns kept = Ok kept.
Proof.
  apply filter_enabled_patterns_spec.
  repeat constructor.
Defined.

Lemma filter_enabled_patterns_absent_witness :
  filter_enabled_patterns
    ([PDict [("enabled", PBool true)]] ++ PDict [("id", PStr "a")] :: [])%list =
  filter_enabled_patterns ([PDict [("enabled", PBool true)]] ++ [])%list.
Proof.
  apply filter_enabled_patterns_absent. reflexivity.
Defined.

Lemma select_coding_standard_spec_witness :
  exists r w' listing skipped,
    select_coding_standard ascii_python (PList example_standards)
      (console ["two"; "3"; "2"; "1"]) = Some (r, w') /\
    requests w' = requests (console ["two"; "3"; "2"; "1"]) /\
    files w' = files (console ["two"; "3"; "2"; "1"]) /\
    length listing = length example_standards /\
    Forall (fun line => ~ selects ascii_python (length example_standards) line)
      skipped /\
    stdout w' =
      (stdout (console ["two"; "3"; "2"; "1"]) ++
       [(LF ++ "Available coding standards:")%string] ++ listing ++
       concat ((fun line => [standard_prompt; standard_retry ascii_python line])
                 <$> skipped) ++
       [standard_prompt])%list /\
    ((exists line selection standard,
        int_of_str ascii_python line = Some selection /\
        (1 ≤ selection ≤ Z.of_nat (length example_standards))%Z /\
        nth_error example_standards (Z.to_nat (selection - 1)) = Some standard /\
        r = Ok standard /\
        stdin (console ["two"; "3"; "2"; "1"]) = (skipped ++ line :: stdin w')%list) \/
     (r = Raise EOFError /\ stdin (console ["two"; "3"; "2"; "1"]) = skipped /\
      stdin w' = [])).
Proof.
  apply select_coding_standard_spec. repeat constructor.
Defined.

Lemma get_tool_by_uuid_spec_witness :
  (exists before tool after,
     example_tools = (before ++ tool :: after)%list /\
     Forall (fun t => has_uuid SEMGREP_UUID t = false) before /\
     has_uuid SEMGREP_UUID tool = true /\ truthy tool = true /\
     get_tool_by_uuid (PList example_tools) SEMGREP_UUID = Ok tool) \/
  (Forall (fun t => has_uuid SEMGREP_UUID t = false) example_tools /\
   get_tool_by_uuid (PList example_tools) SEMGREP_UUID = Ok PNone).
Proof.
  apply get_tool_by_uuid_spec. repeat constructor.
Defined.


Lemma get_code_patterns_for_tool_unbounded_witness :
  get_code_patterns_for_tool ascii_python 1000 "acme" "gh" "101" SEMGREP_UUID
    (served endless []) = None.
Proof.
  apply get_code_patterns_for_tool_unbounded.
  intros history request. eexists _, _, _. repeat split; reflexivity.
Defined.

Lemma get_code_patterns_for_tool_failure_witness :
  get_code_patterns_for_tool ascii_python 3 "acme" "gh" "101" SEMGREP_UUID
    (served one_page []) =
  Some (Raise (RequestException "503 Server Error"),
        with_requests [example_url; (example_url ++ "&cursor=c1")%string]
          (served one_page [])).
Proof.
  apply (get_code_patterns_for_tool_failure ascii_python 3 "acme" "gh" "101"
           SEMGREP_UUID [([PStr "p1"; PStr "p2"], PStr "c1")]
           (RequestException "503 Server Error") (served one_page [])).
  - repeat constructor.
  - repeat split; eexists; split; vm_compute; reflexivity.
  - reflexivity.
  - simpl. lia.
Defined.

Lemma format_rule_id_idempotent_witness :
  exists r,
    format_rule_id (PDict [("id", PStr "eslint.no-unused-vars-no-unused-vars")])
      = Ok (PStr r) /\
    r <> "" /\
    str_contains "." r = false /\
    format_rule_id (PDict [("id", PStr r)]) = Ok (PStr r).
Proof.
  apply (format_rule_id_idempotent
           [("id", PStr "eslint.no-unused-vars-no-unused-vars")]
           "eslint.no-unused-vars-no-unused-vars").
  reflexivity.
Defined.

Lemma get_available_languages_spec_witness :
  exists languages,
    get_available_languages ascii_python example_patterns = Ok languages /\
    (forall l, l ∈ languages <-> declares ascii_python example_patterns l) /\
    StronglySorted str_le languages /\
    NoDup languages.
Proof.
  apply get_available_languages_spec.
  repeat constructor; eexists; reflexivity.
Defined.

Lemma get_available_languages_set_witness :
  get_available_languages ascii_python example_patterns =
  get_available_languages ascii_python (rev example_patterns).
Proof.
  apply get_available_languages_set.
  - repeat constructor; eexists; reflexivity.
  - repeat constructor; eexists; reflexivity.
  - intros l. unfold declares.
    split; intros (pattern & declared & lang & Hin & Hrest);
      exists pattern, declared, lang; (split; [|exact Hrest]);
      unfold example_patterns in Hin |- *; cbn [rev app] in Hin |- *;
      rewrite !elem_of_cons in Hin |- *; tauto.
Defined.

Lemma create_semgrep_config_rules_witness :
  exists rules,
    create_semgrep_config ascii_python example_patterns ["python"]
      = Ok (PDict [("rules", PList rules)]) /\
    Forall2 (rule_of ascii_python ["python"])
      (filter (qualifies ascii_python ["python"]) example_patterns) rules.
Proof.
  apply create_semgrep_config_rules. repeat constructor.
Defined.

Lemma create_semgrep_config_severity_witness :
  create_semgrep_config ascii_python
    (example_patterns ++ PDict numbered_pattern :: example_patterns)%list ["go"]
  = if qualifies ascii_python ["go"] (PDict numbered_pattern)
    then Raise (AttributeError (PInt 3) "upper")
    else create_semgrep_config ascii_python
           (example_patterns ++ example_patterns)%list ["go"].
Proof.
  apply create_semgrep_config_severity.
  - repeat constructor.
  - reflexivity.
  - reflexivity.
  - reflexivity.
  - discriminate.
Defined.

Lemma create_semgrep_config_available_witness :
  exists available rules,
    get_available_languages ascii_python example_patterns = Ok available /\
    create_semgrep_config ascii_python example_patterns ["go"; "rust"]
      = Ok (PDict [("rules", PList rules)]) /\
    (rules = [] <-> forall l, l ∈ ["go"; "rust"] -> l ∉ available).
Proof.
  apply create_semgrep_config_available. repeat constructor.
Defined.

Lemma filter_enabled_patterns_error_witness :
  filter_enabled_patterns (example_patterns ++ PNone :: example_patterns)%list
  = Raise (AttributeError PNone "get").
Proof.
  apply filter_enabled_patterns_error.
  - repeat constructor.
  - reflexivity.
Defined.

Lemma main_frame_witness :
  exists w',
    main ascii_python (Some "token") 10 example_arguments (console [])
      = Some (Returned, w') /\
    extends 1 (output example_arguments) (console []) w' /\
    match given (Some "token") with
    | Some _ => Returned = Returned
    | None =>
        Returned =
        Uncaught (ValueError "CODACY_API_TOKEN environment variable is not set")
        /\ w' = console []
    end.
Proof.
  eexists. split; [vm_compute; reflexivity|].
  apply (main_frame ascii_python (Some "token") 10 example_arguments).
  vm_compute. reflexivity.
Defined.



Lemma enabled_patterns_rules_witness :
  exists enabled_patterns rules,
    filter_enabled_patterns example_patterns = Ok enabled_patterns /\
    create_semgrep_config ascii_python enabled_patterns ["python"]
      = Ok (PDict [("rules", PList rules)]) /\
    Forall2 (rule_of ascii_python ["python"])
      (filter (fun p => enabled p && qualifies ascii_python ["python"] p)
              example_patterns)
      rules.
Proof.
  apply enabled_patterns_rules. repeat constructor.
Defined.

